(** * Brazilian Room availability checker: a shallow embedding of
      [check_availability.ts] and the properties of its poll-and-notify logic.

    The program is a Bun script: it fetches three date-range chunks from a
    reservation API, keeps the Saturdays that are bookable, and raises a
    desktop notification and an ntfy push.  The embedding has four layers:

    - [Js]: the JavaScript values the script sees after [JSON.parse], with the
      few operations the script applies to them (property reads, optional
      chaining, string conversion, strict equality, [> 0], spreading);
    - [Calendar]: the part of [Date] the script uses (parsing the ISO
      date-time string, [getDay], the two [toLocaleDateString] formats);
    - [Effects]: the outside world ([fetch], [Bun.spawnSync]) as oracles, and
      a writer/exception monad recording what the run does to it;
    - the script itself, definition by definition, under the source's names. *)

From Stdlib Require Import ZArith List String Ascii Bool Lia DecimalString.
Import ListNotations.
Open Scope string_scope.
Open Scope Z_scope.

Set Warnings "-register-all".

(** ** Strings *)

Definition dquote : string := String "034"%char EmptyString.
Definition newline : string := String "010"%char EmptyString.

(** [Array.prototype.join]. *)
Fixpoint join (sep : string) (l : list string) : string :=
  match l with
  | [] => EmptyString
  | [x] => x
  | x :: rest => x ++ sep ++ join sep rest
  end.

(** Decimal rendering of an integer, as a template literal renders a number. *)
Definition decimal (n : Z) : string := NilZero.string_of_int (Z.to_int n).

(** [contains sub s]: [sub] occurs in [s]. *)
Definition contains (sub s : string) : Prop :=
  exists pre post, s = pre ++ sub ++ post.

(** ** JavaScript values *)

Module Js.

(** What [await resp.json()] can hold, plus [undefined], which property
    reads produce.  Numbers are the integer-valued ones (status codes,
    lengths); [-0] and [0] are the same [Num 0], as they are for [===]. *)
Inductive value : Type :=
| Undefined
| Null
| Bool (b : bool)
| Num (n : Z)
| Str (s : string)
| Arr (items : list value)
| Obj (fields : list (string * value)).

Definition nullish (v : value) : bool :=
  match v with
  | Undefined | Null => true
  | _ => false
  end.

(** An object built by [JSON.parse] keeps the last binding of a repeated
    key. *)
Fixpoint lookup (k : string) (fields : list (string * value)) : option value :=
  match fields with
  | [] => None
  | (k', v) :: rest =>
      match lookup k rest with
      | Some v' => Some v'
      | None => if String.eqb k k' then Some v else None
      end
  end.

(** [v.k] for a [v] that is neither [null] nor [undefined].  The script
    reads the names [headers], [response_code], [response_message], [body],
    [details], [daily_details], [date], [status], [times] and [length];
    none of them is an array index or an inherited method, so arrays and
    strings answer [length] only and primitives answer nothing. *)
Definition get (v : value) (k : string) : value :=
  match v with
  | Obj fields =>
      match lookup k fields with
      | Some x => x
      | None => Undefined
      end
  | Arr items =>
      if String.eqb k "length" then Num (Z.of_nat (List.length items))
      else Undefined
  | Str s =>
      if String.eqb k "length" then Num (Z.of_nat (String.length s))
      else Undefined
  | _ => Undefined
  end.

(** [v?.k]: the optional chain answers [undefined] on a nullish base. *)
Definition optGet (v : value) (k : string) : value :=
  if nullish v then Undefined else get v k.

(** [a ?? b]. *)
Definition coalesce (a b : value) : value :=
  if nullish a then b else a.

(** String conversion, as a template literal applies it, of a value that
    can be converted ([convertible] below). *)
Fixpoint toString (v : value) : string :=
  match v with
  | Undefined => "undefined"
  | Null => "null"
  | Bool true => "true"
  | Bool false => "false"
  | Num n => decimal n
  | Str s => s
  | Arr items =>
      join ","
        (List.map (fun x => if nullish x then EmptyString else toString x)
           items)
  | Obj _ => "[object Object]"
  end.

(** String conversion and numeric comparison start by converting their
    operand to a primitive.  That throws a TypeError on an object with an
    own [toString] property: what [JSON.parse] builds is never callable, and
    the inherited [valueOf] gives the object back.  An array is converted
    through [join], which converts every element that is not [null] or
    [undefined].  [convertible v]: converting [v] does not throw. *)
Fixpoint convertible (v : value) : bool :=
  match v with
  | Obj fields =>
      match lookup "toString" fields with
      | Some _ => false
      | None => true
      end
  | Arr items => List.forallb convertible items
  | _ => true
  end.

(** [a === b] against a primitive constant of the script. *)
Definition strictEqNum (v : value) (n : Z) : bool :=
  match v with
  | Num m => m =? n
  | _ => false
  end.

Definition strictEqStr (v : value) (s : string) : bool :=
  match v with
  | Str t => String.eqb t s
  | _ => false
  end.

(** Numeric conversion of a string, for integer numerals: optional ASCII
    white space around an optionally signed run of decimal digits; the
    empty string is [0].  Anything else is [NaN] ([None]); numerals with a
    fraction, an exponent or a radix prefix are outside the integer-valued
    numbers of this model. *)
Definition isSpace (c : ascii) : bool :=
  let n := nat_of_ascii c in
  ((9 <=? n) && (n <=? 13))%nat || (n =? 32)%nat.

Definition digitOf (c : ascii) : option Z :=
  let n := nat_of_ascii c in
  if ((48 <=? n) && (n <=? 57))%nat then Some (Z.of_nat n - 48) else None.

Fixpoint digitsFrom (acc : Z) (cs : list ascii) : option Z :=
  match cs with
  | [] => Some acc
  | c :: rest =>
      match digitOf c with
      | Some d => digitsFrom (10 * acc + d) rest
      | None => None
      end
  end.

Definition digits (cs : list ascii) : option Z :=
  match cs with
  | [] => None
  | _ => digitsFrom 0 cs
  end.

Fixpoint dropSpaces (cs : list ascii) : list ascii :=
  match cs with
  | c :: rest => if isSpace c then dropSpaces rest else cs
  | [] => []
  end.

Definition trim (cs : list ascii) : list ascii :=
  rev (dropSpaces (rev (dropSpaces cs))).

Definition stringToNumber (s : string) : option Z :=
  match trim (list_ascii_of_string s) with
  | [] => Some 0
  | c :: rest =>
      if Ascii.eqb c "-" then option_map Z.opp (digits rest)
      else if Ascii.eqb c "+" then digits rest
      else digits (c :: rest)
  end.

(** [v > 0] for a convertible [v]: the operand is converted to a number
    and [NaN] compares false.  An array or object first becomes its
    string. *)
Definition gtZero (v : value) : bool :=
  match v with
  | Undefined => false
  | Null => false
  | Bool b => b
  | Num n => 0 <? n
  | Str s =>
      match stringToNumber s with
      | Some n => 0 <? n
      | None => false
      end
  | Arr _ | Obj _ =>
      match stringToNumber (toString v) with
      | Some n => 0 <? n
      | None => false
      end
  end.

End Js.
Import Js.

(** ** Calendar *)

Module Calendar.

Record datetime : Type := mkDatetime {
  year : Z; month : Z; day : Z;
  hour : Z; minute : Z; second : Z
}.

Definition isLeap (y : Z) : bool :=
  ((y mod 4 =? 0) && negb (y mod 100 =? 0)) || (y mod 400 =? 0).

Definition daysInMonth (y m : Z) : Z :=
  if m =? 2 then (if isLeap y then 29 else 28)
  else if (m =? 4) || (m =? 6) || (m =? 9) || (m =? 11) then 30
  else 31.

(** Days from 1970-01-01 to the civil date, proleptic Gregorian. *)
Definition daysFromCivil (y m d : Z) : Z :=
  let y' := if m <=? 2 then y - 1 else y in
  let era := y' / 400 in
  let yoe := y' - era * 400 in
  let mp := if 2 <? m then m - 3 else m + 9 in
  let doy := (153 * mp + 2) / 5 + d - 1 in
  let doe := yoe * 365 + yoe / 4 - yoe / 100 + doy in
  era * 146097 + doe - 719468.

(** 0 is Sunday, 6 is Saturday; 1970-01-01 was a Thursday. *)
Definition weekday (y m d : Z) : Z := (daysFromCivil y m d + 4) mod 7.

Definition twoDigits (a b : ascii) : option Z := digits [a; b].

(** The date part of the ECMAScript date-time string format: [YYYY],
    [YYYY-MM] or [YYYY-MM-DD]; absent fields are [01]. *)
Definition parseDatePart (s : string) : option (Z * Z * Z) :=
  match list_ascii_of_string s with
  | [y1; y2; y3; y4] =>
      match digits [y1; y2; y3; y4] with
      | Some y => Some (y, 1, 1)
      | None => None
      end
  | [y1; y2; y3; y4; s1; m1; m2] =>
      match digits [y1; y2; y3; y4], twoDigits m1 m2 with
      | Some y, Some m =>
          if Ascii.eqb s1 "-" then Some (y, m, 1) else None
      | _, _ => None
      end
  | [y1; y2; y3; y4; s1; m1; m2; s2; d1; d2] =>
      match digits [y1; y2; y3; y4], twoDigits m1 m2, twoDigits d1 d2 with
      | Some y, Some m, Some d =>
          if Ascii.eqb s1 "-" && Ascii.eqb s2 "-" then Some (y, m, d)
          else None
      | _, _, _ => None
      end
  | _ => None
  end.

(** The time part: [HH:mm:ss]. *)
Definition parseTimePart (s : string) : option (Z * Z * Z) :=
  match list_ascii_of_string s with
  | [h1; h2; s1; m1; m2; s2; x1; x2] =>
      match twoDigits h1 h2, twoDigits m1 m2, twoDigits x1 x2 with
      | Some h, Some m, Some x =>
          if Ascii.eqb s1 ":" && Ascii.eqb s2 ":" then Some (h, m, x)
          else None
      | _, _, _ => None
      end
  | _ => None
  end.

(** [new Date(s)] for a string in the date-time format without an offset,
    which is read as local time.  [None] is the Invalid Date: the string
    is not in the format or a field is out of range.  Engines accept more
    than the format asks for (a day past the end of its month read as a day
    of the next month, years of other lengths); this definition is exact on
    calendar dates written [YYYY-MM-DD], which is what the API sends. *)
Definition newDate (s : string) : option datetime :=
  match String.index 0 "T" s with
  | None => None
  | Some i =>
      let datePart := String.substring 0 i s in
      let timePart := String.substring (S i) (String.length s - S i) s in
      match parseDatePart datePart, parseTimePart timePart with
      | Some (y, m, d), Some (hh, mm, ss) =>
          if (1 <=? m) && (m <=? 12) && (1 <=? d) && (d <=? daysInMonth y m)
             && (hh <=? 23) && (mm <=? 59) && (ss <=? 59)
          then Some (mkDatetime y m d hh mm ss)
          else None
      | _, _ => None
      end
  end.

(** [getDay()]: the weekday in local time, that is of the civil date the
    string named; [None] is [NaN]. *)
Definition getDay (t : option datetime) : option Z :=
  match t with
  | Some dt => Some (weekday (year dt) (month dt) (day dt))
  | None => None
  end.

Definition weekdayName (w : Z) : string :=
  nth (Z.to_nat w)
    ["Sunday"; "Monday"; "Tuesday"; "Wednesday"; "Thursday"; "Friday";
     "Saturday"] EmptyString.

Definition monthName (m : Z) : string :=
  nth (Z.to_nat (m - 1))
    ["January"; "February"; "March"; "April"; "May"; "June"; "July";
     "August"; "September"; "October"; "November"; "December"] EmptyString.

Definition monthShort (m : Z) : string :=
  nth (Z.to_nat (m - 1))
    ["Jan"; "Feb"; "Mar"; "Apr"; "May"; "Jun"; "Jul"; "Aug"; "Sep"; "Oct";
     "Nov"; "Dec"] EmptyString.

(** [toLocaleDateString('en-US', {weekday: 'long', year: 'numeric',
    month: 'long', day: 'numeric', timeZone: 'America/Los_Angeles'})].
    The host runs in that time zone (the script is installed on the
    operator's Mac in the East Bay), so local noon keeps its civil date.
    On a host whose clock is more than twelve hours ahead of Los Angeles
    the script shows the day before; that is outside this definition. *)
Definition longDate (t : option datetime) : string :=
  match t with
  | None => "Invalid Date"
  | Some dt =>
      weekdayName (weekday (year dt) (month dt) (day dt)) ++ ", " ++
      monthName (month dt) ++ " " ++ decimal (day dt) ++ ", " ++
      decimal (year dt)
  end.

(** [toLocaleDateString('en-US', {month: 'short', day: 'numeric',
    timeZone: 'America/Los_Angeles'})], under the same reading. *)
Definition shortDate (t : option datetime) : string :=
  match t with
  | None => "Invalid Date"
  | Some dt => monthShort (month dt) ++ " " ++ decimal (day dt)
  end.

End Calendar.

Import Calendar.

(** ** The outside world and the effects of a run *)

Module Effects.

(** A thrown [Error] object: its class and its [message]. *)
Record exn : Type := mkExn { name : string; message : string }.

Record request : Type := mkRequest {
  method : string;
  url : string;
  headers : list (string * string);
  body : option string
}.

(** What [await resp.json()] gives: the parsed body, or a rejection when the
    body is not JSON. *)
Inductive jsonResult : Type :=
| Parsed (data : value)
| Unparsable (e : exn).

Record response : Type := mkResponse {
  httpStatus : Z;
  json : jsonResult
}.

(** [resp.ok]: the status is in the range 200-299. *)
Definition ok (resp : response) : bool :=
  (200 <=? httpStatus resp) && (httpStatus resp <=? 299).

(** [await fetch(...)]: a response of any status, or a rejected promise when
    the request could not be completed. *)
Inductive fetchResult : Type :=
| Rejected (e : exn)
| Responded (resp : response).

(** [Bun.spawnSync(argv)]: the child's exit code; or, for a child ended by
    a signal, no exit code ([exitCode] is [null]); or an exception when the
    command cannot be started. *)
Inductive spawnResult : Type :=
| SpawnFailed (e : exn)
| Exited (exitCode : Z)
| Killed (signalCode : string).

(** The collaborators of one run: the network and the operating system.
    A run sends each of its requests once, so an answer per request says
    all the world can do to it. *)
Record World : Type := mkWorld {
  fetch : request -> fetchResult;
  spawnSync : list string -> spawnResult
}.

(** What a run does, in order.  [Stdout level message] is one log line; its
    time stamp comes from the clock and is not recorded. *)
Inductive event : Type :=
| Stdout (level message : string)
| Fetch (req : request)
| Spawn (argv : list string).

Inductive outcome (A : Type) : Type :=
| Returns (a : A)
| Throws (e : exn).
Arguments Returns {A} a.
Arguments Throws {A} e.

(** A computation: the events it performed and how it ended.  Awaited
    promises run to completion one after the other, so [await] is [bind]. *)
Definition M (A : Type) : Type := (list event * outcome A)%type.

Definition ret {A : Type} (a : A) : M A := ([], Returns a).

Definition throw {A : Type} (e : exn) : M A := ([], Throws e).

Definition emit (ev : event) : M unit := ([ev], Returns tt).

Definition bind {A B : Type} (m : M A) (k : A -> M B) : M B :=
  match m with
  | (t, Returns a) => let (t', r) := k a in ((t ++ t')%list, r)
  | (t, Throws e) => (t, Throws e)
  end.

Declare Scope js_scope.
Delimit Scope js_scope with js.
Notation "x <- m ;; k" := (bind m (fun x => k))
  (at level 61, m at next level, right associativity) : js_scope.
Notation "m ;; k" := (bind m (fun _ => k))
  (at level 61, right associativity) : js_scope.

Definition trace {A : Type} (m : M A) : list event := fst m.
Definition result {A : Type} (m : M A) : outcome A := snd m.

End Effects.
Import Effects.
Open Scope js_scope.

(** ** The script *)

(** *** Config *)

Definition RESOURCE_ID : Z := 150.
Definition RESOURCE_NAME : string := "Brazilian Room".

Definition NTFY_TOPIC : string := "brazilian-room-pfr".

Definition DATE_RANGES : list (string * string) :=
  [ ("2027-06-01", "2027-07-14");
    ("2027-07-15", "2027-08-27");
    ("2027-08-28", "2027-08-31") ].

Definition API_BASE : string :=
  "https://anc.apm.activecommunities.com/ebparks/rest/reservation/resource" ++
  "/availability/daily/" ++ decimal RESOURCE_ID.

Definition STATUS_AVAILABLE : Z := 0.

(** *** Logging *)

(** The line written to standard output is the time stamp, the level padded
    to eight characters and the message; the event keeps the last two. *)
Definition log (level message : string) : M unit :=
  emit (Stdout level message).

Module logger.
Definition info (msg : string) : M unit := log "INFO" msg.
Definition warn (msg : string) : M unit := log "WARNING" msg.
Definition error (msg : string) : M unit := log "ERROR" msg.
End logger.

(** *** Helpers *)

(** The argument is whatever [entry.date] holds; the template literal turns
    it into a string ([toPrimitive] below stands for the throw of that
    conversion where the script calls this on a fetched value).
    [NaN === 6] is false. *)
Definition isSaturday (dateStr : value) : bool :=
  match getDay (newDate (toString dateStr ++ "T12:00:00")) with
  | Some d => d =? 6
  | None => false
  end.

Definition formatLabel (dateStr : value) : string :=
  longDate (newDate (toString dateStr ++ "T12:00:00")).

Definition formatShort (dateStr : value) : string :=
  shortDate (newDate (toString dateStr ++ "T12:00:00")).

(** The shape the script declares for a daily record.  TypeScript erases it:
    at run time an entry is whatever the body held, a [value]. *)
Record DailyDetail : Type := mkDailyDetail {
  date : string;
  status : Z;
  times : list value
}.

Section Script.

Variable w : World.

(** The two calls into the world; each leaves its event in the trace. *)
Definition awaitFetch (req : request) : M response :=
  match fetch w req with
  | Responded resp => ([Fetch req], Returns resp)
  | Rejected e => ([Fetch req], Throws e)
  end.

Definition bunSpawnSync (argv : list string) : M value :=
  match spawnSync w argv with
  | Exited exitCode => ([Spawn argv], Returns (Num exitCode))
  | Killed _ => ([Spawn argv], Returns Null)
  | SpawnFailed e => ([Spawn argv], Throws e)
  end.

Definition awaitJson (resp : response) : M value :=
  match json resp with
  | Parsed data => ret data
  | Unparsable e => throw e
  end.

Definition osascript (title message : string) : string :=
  "display notification " ++ dquote ++ message ++ dquote ++
  " with title " ++ dquote ++ title ++ dquote ++
  " sound name " ++ dquote ++ "Glass" ++ dquote.

Definition sendNotification (title message : string) : M unit :=
  let script := osascript title message in
  exitCode <- bunSpawnSync ["osascript"; "-e"; script] ;;
  if negb (strictEqNum exitCode 0) then
    logger.error
      ("Desktop notification failed (exit code " ++ toString exitCode ++ ")")
  else
    logger.info "Desktop notification sent.".

Definition ntfyRequest (title message : string) : request :=
  {| method := "POST";
     url := "https://ntfy.sh/" ++ NTFY_TOPIC;
     headers := [("Title", title); ("Priority", "high"); ("Tags", "calendar")];
     body := Some message |}.

Definition sendNtfy (title message : string) : M unit :=
  resp <- awaitFetch (ntfyRequest title message) ;;
  if negb (ok resp) then
    logger.error
      ("ntfy notification failed (HTTP " ++ decimal (httpStatus resp) ++ ")")
  else
    logger.info "ntfy notification sent.".

(** *** Core check *)

Definition rangeRequest (startDate endDate : string) : request :=
  {| method := "GET";
     url := API_BASE ++ "?start_date=" ++ startDate ++ "&end_date=" ++ endDate ++
            "&customer_id=0&company_id=0&locale=en-US";
     headers :=
       [("User-Agent",
         "Mozilla/5.0 (Macintosh; Intel Mac OS X 10_15_7) " ++
         "AppleWebKit/537.36 (KHTML, like Gecko) " ++
         "Chrome/120.0.0.0 Safari/537.36");
        ("Accept", "application/json")];
     body := None |}.

Definition responseCode (data : value) : value :=
  optGet (optGet data "headers") "response_code".

Definition responseMessage (data : value) : value :=
  optGet (optGet data "headers") "response_message".

Definition dailyDetails (data : value) : value :=
  optGet (optGet (optGet data "body") "details") "daily_details".

(** The text of the second error is built by string conversion of
    [response_message]; a message that cannot be converted changes the error
    that is thrown there, not whether one is thrown. *)
Definition fetchRange (startDate endDate : string) : M value :=
  resp <- awaitFetch (rangeRequest startDate endDate) ;;
  if negb (ok resp) then
    throw (mkExn "Error"
             ("API returned HTTP " ++ decimal (httpStatus resp) ++
              " for range " ++ startDate ++ "–" ++ endDate))
  else
    data <- awaitJson resp ;;
    if negb (strictEqStr (responseCode data) "0000") then
      throw (mkExn "Error"
               ("API error for range " ++ startDate ++ "–" ++ endDate ++ ": " ++
                toString (responseMessage data)))
    else
      ret (coalesce (dailyDetails data) (Arr [])).

(** The conversion to a primitive at the head of a template literal or of
    a comparison: it returns for a convertible value and throws for the
    others. *)
Definition toPrimitive (v : value) : M unit :=
  if convertible v then ret tt
  else throw (mkExn "TypeError" "No default value").

(** [entry.k] outside an optional chain throws on [null] and [undefined]. *)
Definition getProp (v : value) (k : string) : M value :=
  if nullish v then
    throw (mkExn "TypeError"
             (toString v ++ " is not an object (evaluating '." ++ k ++ "')"))
  else ret (get v k).

(** [...details] inside [push]: an array gives its items, a string its
    characters, and any other value is not iterable. *)
Definition spread (details : value) : M (list value) :=
  match details with
  | Arr items => ret items
  | Str s =>
      ret (List.map (fun c => Str (String c EmptyString))
             (list_ascii_of_string s))
  | _ => throw (mkExn "TypeError" (toString details ++ " is not iterable"))
  end.

(** The first loop of [checkAvailability], over the remaining chunks. *)
Fixpoint fetchChunks (ranges : list (string * string))
    (allDetails : list value) : M (list value) :=
  match ranges with
  | [] => ret allDetails
  | (startDate, endDate) :: rest =>
      details <- fetchRange startDate endDate ;;
      items <- spread details ;;
      fetchChunks rest (allDetails ++ items)%list
  end.

(** [entry.status === STATUS_AVAILABLE && entry.times.length > 0]: the right
    operand is evaluated only when the left one holds, and its comparison
    converts the length first. *)
Definition isAvailable (entry : value) : M bool :=
  st <- getProp entry "status" ;;
  if strictEqNum st STATUS_AVAILABLE then
    ts <- getProp entry "times" ;;
    len <- getProp ts "length" ;;
    toPrimitive len ;;
    ret (gtZero len)
  else ret false.

(** The second loop, over the remaining entries.  [isSaturday(entry.date)]
    builds its string first, which converts the date. *)
Fixpoint classify (entries : list value) (available : list value)
    : M (list value) :=
  match entries with
  | [] => ret available
  | entry :: rest =>
      d <- getProp entry "date" ;;
      toPrimitive d ;;
      if negb (isSaturday d) then classify rest available
      else
        let label := formatLabel d in
        avail <- isAvailable entry ;;
        if avail then
          logger.info ("  AVAILABLE on " ++ label) ;;
          classify rest (available ++ [d])%list
        else
          logger.info ("  Not available on " ++ label) ;;
          classify rest available
  end.

Definition checkAvailability : M (list value) :=
  allDetails <- fetchChunks DATE_RANGES [] ;;
  (if (List.length allDetails =? 0)%nat then
     logger.warn "API returned no daily_details — response may have changed."
   else ret tt) ;;
  classify allDetails [].

Definition main : M unit :=
  logger.info ("=== " ++ RESOURCE_NAME ++ " availability check starting ===") ;;
  available <- checkAvailability ;;
  (if (0 <? List.length available)%nat then
     let summary := join " | " (List.map formatShort available) in
     let detail :=
       join newline (List.map (fun d => "  • " ++ formatLabel d) available) in
     logger.info ("AVAILABLE DATES FOUND:" ++ newline ++ detail) ;;
     sendNotification (RESOURCE_NAME ++ " AVAILABLE!") ("Open on: " ++ summary) ;;
     sendNtfy (RESOURCE_NAME ++ " AVAILABLE!") ("Open on: " ++ summary)
   else
     sendNtfy (RESOURCE_NAME ++ " NOT AVAILABLE!")
       "No availability found for any target Saturday." ;;
     logger.info "No availability found for any target Saturday.") ;;
  logger.info ("=== Check complete ===" ++ newline).

(** [main().catch(...)]: the events of the run and the exit code of the
    process. *)
Definition run : list event * Z :=
  match main with
  | (t, Returns _) => (t, 0)
  | (t, Throws err) =>
      ((t ++ [Stdout "ERROR" ("Fatal: " ++ message err)])%list, 1)
  end.

End Script.

(** * Vocabulary for the properties *)

(** ** Typed records *)

(** [entry] has the declared shape [DailyDetail] with the fields of [r]:
    TypeScript's structural reading, extra properties allowed. *)
Definition conforms (entry : value) (r : DailyDetail) : Prop :=
  nullish entry = false /\
  get entry "date" = Str (date r) /\
  get entry "status" = Num (status r) /\
  get entry "times" = Arr (times r).

(** The JSON object of a record, and the envelope the API wraps a
    [daily_details] value in. *)
Definition recordValue (r : DailyDetail) : value :=
  Obj [("date", Str (date r)); ("status", Num (status r));
       ("times", Arr (times r))].

Definition envelope (details : value) : value :=
  Obj [("headers",
        Obj [("response_code", Str "0000");
             ("response_message", Str "Successful")]);
       ("body", Obj [("details", Obj [("daily_details", details)])])].

(** ** Observations on a run *)

(** The chunk's fetch returns the array [items]. *)
Definition chunkReturns (w : World) (chunk : string * string)
    (items : list value) : Prop :=
  result (fetchRange w (fst chunk) (snd chunk)) = Returns (Arr items).

(** Every configured chunk's fetch returns an array: [chunks] lists them in
    the configured order. *)
Definition sweepReturns (w : World) (chunks : list (list value)) : Prop :=
  Forall2 (chunkReturns w) DATE_RANGES chunks.

(** The chunk's fetch fails: the response is not 2xx, or its body carries a
    response code other than [0000]. *)
Definition chunkFails (w : World) (chunk : string * string) : Prop :=
  exists resp,
    fetch w (rangeRequest (fst chunk) (snd chunk)) = Responded resp /\
    (ok resp = false \/
     exists data, json resp = Parsed data /\ responseCode data <> Str "0000").

Definition chunkRequest (chunk : string * string) : event :=
  Fetch (rangeRequest (fst chunk) (snd chunk)).

(** Events of one kind. *)
Definition isGet (ev : event) : bool :=
  match ev with
  | Fetch req => String.eqb (method req) "GET"
  | _ => false
  end.

Definition isStdout (ev : event) : bool :=
  match ev with
  | Stdout _ _ => true
  | _ => false
  end.

(** The events that are notifications: a spawned command, a POST. *)
Definition isNotification (ev : event) : bool :=
  match ev with
  | Spawn _ => true
  | Fetch req => String.eqb (method req) "POST"
  | Stdout _ _ => false
  end.

Definition notifications (t : list event) : list event :=
  List.filter isNotification t.

(** [l1] is [l2] with some elements left out, order kept. *)
Inductive Subseq {A : Type} : list A -> list A -> Prop :=
| Subseq_nil : Subseq [] []
| Subseq_skip x l1 l2 : Subseq l1 l2 -> Subseq l1 (x :: l2)
| Subseq_keep x l1 l2 : Subseq l1 l2 -> Subseq (x :: l1) (x :: l2).

(** ** The classification in the spec's words *)

(** On a typed record: the date falls on the target weekday; the record is
    available when its status is the sentinel and it has a time slot; it is
    reported when both hold. *)
Definition onTargetWeekday (r : DailyDetail) : bool :=
  isSaturday (Str (date r)).

Definition hasSlots (r : DailyDetail) : bool :=
  match times r with
  | [] => false
  | _ :: _ => true
  end.

Definition specAvailable (r : DailyDetail) : bool :=
  (status r =? STATUS_AVAILABLE) && hasSlots r.

Definition reported (r : DailyDetail) : bool :=
  onTargetWeekday r && specAvailable r.

Definition dateValue (r : DailyDetail) : value := Str (date r).

Definition dispositionLine (r : DailyDetail) : event :=
  Stdout "INFO"
    ((if specAvailable r then "  AVAILABLE on " else "  Not available on ") ++
     formatLabel (dateValue r)).

(** ** The lines and messages of a run *)

Definition banner : event :=
  Stdout "INFO" ("=== " ++ RESOURCE_NAME ++ " availability check starting ===").

Definition emptyWarning : event :=
  Stdout "WARNING" "API returned no daily_details — response may have changed.".

Definition warnIfEmpty (allDetails : list value) : list event :=
  match allDetails with
  | [] => [emptyWarning]
  | _ :: _ => []
  end.

Definition foundLine (available : list value) : event :=
  Stdout "INFO"
    ("AVAILABLE DATES FOUND:" ++ newline ++
     join newline (List.map (fun d => "  • " ++ formatLabel d) available)).

Definition availableTitle : string := RESOURCE_NAME ++ " AVAILABLE!".

Definition availableBody (available : list value) : string :=
  "Open on: " ++ join " | " (List.map formatShort available).

Definition unavailableTitle : string := RESOURCE_NAME ++ " NOT AVAILABLE!".

Definition unavailableBody : string :=
  "No availability found for any target Saturday.".

Definition alertArgv (title message : string) : list string :=
  ["osascript"; "-e"; osascript title message].

Definition alertLine (exitCode : Z) : event :=
  if negb (exitCode =? 0) then
    Stdout "ERROR"
      ("Desktop notification failed (exit code " ++ decimal exitCode ++ ")")
  else Stdout "INFO" "Desktop notification sent.".

(** The line logged for a child that a signal ended. *)
Definition killedLine : event :=
  Stdout "ERROR" "Desktop notification failed (exit code null)".

Definition pushLine (resp : response) : event :=
  if negb (ok resp) then
    Stdout "ERROR"
      ("ntfy notification failed (HTTP " ++ decimal (httpStatus resp) ++ ")")
  else Stdout "INFO" "ntfy notification sent.".

Definition completeLine : event :=
  Stdout "INFO" ("=== Check complete ===" ++ newline).

Definition fatalLine (e : exn) : event :=
  Stdout "ERROR" ("Fatal: " ++ message e).

(** ** The configured chunks as day numbers *)

(** The day number of a configured date, read the way the script reads
    dates. *)
Definition dayNumber (d : string) : option Z :=
  match newDate (d ++ "T12:00:00") with
  | Some dt => Some (daysFromCivil (year dt) (month dt) (day dt))
  | None => None
  end.

(** [chunkSpan chunk first last]: the chunk runs from day [first] to day
    [last]. *)
Definition chunkSpan (chunk : string * string) (first last : Z) : Prop :=
  dayNumber (fst chunk) = Some first /\ dayNumber (snd chunk) = Some last.

Definition wellFormedChunk (chunk : string * string) : Prop :=
  exists first last,
    chunkSpan chunk first last /\ first <= last /\ last - first <= 44.

(** The earlier chunk ends before the later one starts. *)
Definition chunkBefore (a b : string * string) : Prop :=
  exists first last first' last',
    chunkSpan a first last /\ chunkSpan b first' last' /\ last < first'.

(** ** Scenarios *)

Definition respond (code : Z) (data : value) : fetchResult :=
  Responded {| httpStatus := code; json := Parsed data |}.

(** A world that answers the three configured chunks in order with [c1],
    [c2], [c3], every POST with [push], and every spawn with [alert]. *)
Definition scripted (c1 c2 c3 push : fetchResult) (alert : spawnResult)
  : World :=
  {| fetch := fun req =>
       if String.eqb (method req) "POST" then push
       else if String.eqb (url req) (url (rangeRequest "2027-06-01" "2027-07-14"))
       then c1
       else if String.eqb (url req) (url (rangeRequest "2027-07-15" "2027-08-27"))
       then c2
       else c3;
     spawnSync := fun _ => alert |}.

Definition slot : value := Str "18:00".

Definition openOn (d : string) : DailyDetail := mkDailyDetail d 0 [slot].

Definition closedOn (d : string) : DailyDetail := mkDailyDetail d 1 [].

Definition records (rs : list DailyDetail) : fetchResult :=
  respond 200 (envelope (Arr (List.map recordValue rs))).

Definition pushAccepted : fetchResult := respond 200 Null.

Definition pushUnreachable : fetchResult :=
  Rejected (mkExn "TypeError" "Unable to connect").

(** A successful envelope without a body. *)
Definition headersOnly : value :=
  Obj [("headers", Obj [("response_code", Str "0000")])].

(** A: each chunk reports one open Saturday. *)
Definition scenarioA : World :=
  scripted (records [openOn "2027-06-05"]) (records [openOn "2027-07-17"])
    (records [openOn "2027-08-28"]) pushAccepted (Exited 0).

(** B: each chunk reports one closed Saturday. *)
Definition scenarioB : World :=
  scripted (records [closedOn "2027-06-05"]) (records [closedOn "2027-07-17"])
    (records [closedOn "2027-08-28"]) pushAccepted (Exited 0).

(** C: the second chunk answers HTTP 500. *)
Definition scenarioC : World :=
  scripted (records [openOn "2027-06-05"]) (respond 500 Null)
    (records [openOn "2027-08-28"]) pushAccepted (Exited 0).

(** The API reports nothing at all: no [daily_details] in the first chunk,
    empty ones in the others. *)
Definition scenarioEmpty (push : fetchResult) : World :=
  scripted (respond 200 headersOnly) (records []) (records []) push (Exited 0).

(** A week of June: an open Saturday, an open Sunday, a closed Saturday. *)
Definition scenarioWeek : World :=
  scripted
    (records [openOn "2027-06-05"; openOn "2027-06-06"; closedOn "2027-06-12"])
    (records []) (records []) pushAccepted (Exited 0).

(** Two chunks that both report 5 June. *)
Definition scenarioOverlap : World :=
  scripted (records [openOn "2027-06-05"; openOn "2027-06-12"])
    (records [openOn "2027-06-05"]) (records []) pushAccepted (Exited 0).

(** Scenario A with the push relay out of reach. *)
Definition scenarioPushDown : World :=
  scripted (records [openOn "2027-06-05"]) (records [openOn "2027-07-17"])
    (records [openOn "2027-08-28"]) pushUnreachable (Exited 0).

(** Scenario A with both notifiers answering with a failure status. *)
Definition scenarioBothRefuse : World :=
  scripted (records [openOn "2027-06-05"]) (records [openOn "2027-07-17"])
    (records [openOn "2027-08-28"]) (respond 503 Null) (Exited 1).

(** A closed Saturday whose record has no [times] at all. *)
Definition scenarioNoTimes : World :=
  scripted
    (respond 200
       (envelope (Arr [Obj [("date", Str "2027-06-05"); ("status", Num 1)]])))
    (records []) (records []) pushAccepted (Exited 0).

(** An open Saturday whose record has no [times] at all. *)
Definition scenarioOpenNoTimes : World :=
  scripted
    (respond 200
       (envelope (Arr [Obj [("date", Str "2027-06-05"); ("status", Num 0)]])))
    (records []) (records []) pushAccepted (Exited 0).

(** ** Further vocabulary *)

(** A value that [push(...v)] cannot spread: neither an array nor a
    string. *)
Definition notIterable (v : value) : Prop :=
  match v with
  | Arr _ | Str _ => False
  | _ => True
  end.

(** The chunk's request gets no usable answer: the promise is rejected, or
    a 2xx response carries a body that is not JSON; [e] is the error. *)
Definition chunkBroken (w : World) (chunk : string * string) (e : exn)
  : Prop :=
  fetch w (rangeRequest (fst chunk) (snd chunk)) = Rejected e \/
  exists resp,
    fetch w (rangeRequest (fst chunk) (snd chunk)) = Responded resp /\
    ok resp = true /\ json resp = Unparsable e.

(** An entry the second loop gets through: it is not [null] or
    [undefined], its date can be converted to a string, and if it is a
    Saturday with status 0 it has [times] with a [length] that can be
    converted to a number. *)
Definition classifiable (entry : value) : Prop :=
  nullish entry = false /\
  convertible (get entry "date") = true /\
  (isSaturday (get entry "date") = true ->
   get entry "status" = Num STATUS_AVAILABLE ->
   nullish (get entry "times") = false /\
   convertible (get (get entry "times") "length") = true).

(** The date of an entry as the API sends it: none, or a string of ten
    characters that names a calendar date, [YYYY-MM-DD]. *)
Definition wellDated (entry : value) : Prop :=
  get entry "date" = Undefined \/
  exists s,
    get entry "date" = Str s /\ String.length s = 10%nat /\
    newDate (s ++ "T12:00:00") <> None.

(** Scenario A with the second chunk's request rejected. *)
Definition scenarioChunkRejected : World :=
  scripted (records [openOn "2027-06-05"])
    (Rejected (mkExn "TypeError" "Unable to connect"))
    (records [openOn "2027-08-28"]) pushAccepted (Exited 0).

(** The first chunk's [daily_details] is an object, not an array. *)
Definition scenarioDetailsObject : World :=
  scripted (respond 200 (envelope (Obj [("2027-06-05", Num 0)])))
    (records []) (records []) pushAccepted (Exited 0).

(** Scenario A on a host without the [osascript] command. *)
Definition scenarioNoOsascript : World :=
  scripted (records [openOn "2027-06-05"]) (records [openOn "2027-07-17"])
    (records [openOn "2027-08-28"]) pushAccepted
    (SpawnFailed (mkExn "Error" "Executable not found in $PATH: osascript")).

(** ** The text of a log line *)

(** [s.replace(c, rep)] with a one-character pattern: the first occurrence
    is replaced, the rest is kept. *)
Fixpoint replaceFirst (c : ascii) (rep : string) (s : string) : string :=
  match s with
  | EmptyString => EmptyString
  | String x rest =>
      if Ascii.eqb x c then rep ++ rest
      else String x (replaceFirst c rep rest)
  end.

(** A line terminator, which [.] in a regular expression does not match
    (on ASCII text: line feed and carriage return). *)
Definition isTerminator (c : ascii) : bool :=
  Ascii.eqb c "010" || Ascii.eqb c "013".

Fixpoint noTerminator (s : string) : bool :=
  match s with
  | EmptyString => true
  | String x rest => negb (isTerminator x) && noTerminator rest
  end.

(** [s.replace(/\..+$/, '')]: the leftmost dot that is followed, up to the
    end of the string, by at least one character and no line terminator is
    removed with all that follows it. *)
Fixpoint stripFraction (s : string) : string :=
  match s with
  | EmptyString => EmptyString
  | String x rest =>
      if Ascii.eqb x "." && negb (String.eqb rest EmptyString) &&
         noTerminator rest
      then EmptyString
      else String x (stripFraction rest)
  end.

Fixpoint spaces (n : nat) : string :=
  match n with
  | O => EmptyString
  | S n' => String " " (spaces n')
  end.

(** [s.padEnd(n)]: spaces are added up to length [n]; a longer string is
    left as it is. *)
Definition padEnd (n : nat) (s : string) : string :=
  s ++ spaces (n - String.length s).

(** The line [log] writes, [iso] being what [new Date().toISOString()]
    gave. *)
Definition logLine (iso level message : string) : string :=
  let ts := stripFraction (replaceFirst "T" "  " iso) in
  ts ++ "  " ++ padEnd 8 level ++ "  " ++ message ++ newline.

(** [c] does not occur in [s]. *)
Fixpoint without (c : ascii) (s : string) : bool :=
  match s with
  | EmptyString => true
  | String x rest => negb (Ascii.eqb x c) && without c rest
  end.

(** ** Text inside an AppleScript string *)

(** A string that can stand between double quotes in the script handed to
    [osascript]: it holds neither a double quote nor a backslash. *)
Fixpoint plain (s : string) : bool :=
  match s with
  | EmptyString => true
  | String x rest =>
      negb (Ascii.eqb x "034") && negb (Ascii.eqb x "092") && plain rest
  end.

(** * Properties *)

(** ** Reasoning about computations *)

Lemma bind_returns {A B : Type} (m : M A) (k : A -> M B) t a :
  m = (t, Returns a) ->
  bind m k = ((t ++ trace (k a))%list, result (k a)).
Proof.
  intros ->. unfold bind, trace, result. destruct (k a); reflexivity.
Qed.

Lemma bind_trace_result {A B : Type} (m : M A) (k : A -> M B) :
  bind m k =
  match result m with
  | Returns a => ((trace m ++ trace (k a))%list, result (k a))
  | Throws e => (trace m, Throws e)
  end.
Proof.
  destruct m as [t [a | e]]; simpl; [destruct (k a) |]; reflexivity.
Qed.

Lemma surjective_run {A : Type} (m : M A) : m = (trace m, result m).
Proof. destruct m; reflexivity. Qed.

Lemma bind_ret {A B : Type} (a : A) (k : A -> M B) : bind (ret a) k = k a.
Proof. unfold bind, ret. destruct (k a); reflexivity. Qed.

Lemma bind_info {B : Type} (msg : string) (k : unit -> M B) :
  bind (logger.info msg) k =
  (Stdout "INFO" msg :: trace (k tt), result (k tt)).
Proof.
  unfold logger.info, log, emit, bind, trace, result.
  destruct (k tt); reflexivity.
Qed.

(** ** Events *)

Lemma notifications_app t1 t2 :
  notifications (t1 ++ t2) = (notifications t1 ++ notifications t2)%list.
Proof. apply filter_app. Qed.

Lemma notifications_none t :
  Forall (fun ev => isNotification ev = false) t -> notifications t = [].
Proof.
  induction 1 as [| ev t Hev _ IH]; simpl; [reflexivity |].
  unfold notifications in IH. rewrite Hev. exact IH.
Qed.

Lemma isGet_not_notification ev : isGet ev = true -> isNotification ev = false.
Proof.
  destruct ev as [| req |]; simpl; try discriminate.
  intros H. apply String.eqb_eq in H. now rewrite H.
Qed.

Lemma isStdout_not_notification ev :
  isStdout ev = true -> isNotification ev = false.
Proof. destruct ev; simpl; congruence. Qed.

Lemma alertLine_quiet exitCode : isNotification (alertLine exitCode) = false.
Proof. unfold alertLine. destruct (negb (exitCode =? 0)); reflexivity. Qed.

Lemma pushLine_quiet resp : isNotification (pushLine resp) = false.
Proof. unfold pushLine. destruct (negb (ok resp)); reflexivity. Qed.

Lemma filter_isGet_stdout t :
  Forall (fun ev => isStdout ev = true) t -> List.filter isGet t = [].
Proof.
  induction 1 as [| ev t Hev _ IH]; simpl; [reflexivity |].
  destruct ev; simpl in *; congruence.
Qed.

(** ** Dates *)

(** The weekday computation on dates whose weekday is on record. *)
Example weekday_known :
  weekday 1970 1 1 = 4 /\ weekday 2000 1 1 = 6 /\
  weekday 2024 2 29 = 4 /\ weekday 2027 6 5 = 6.
Proof. repeat split. Qed.

(** The next day is the next weekday. *)
Lemma weekday_next y m d :
  weekday y m (d + 1) = (weekday y m d + 1) mod 7.
Proof.
  unfold weekday, daysFromCivil. cbv zeta.
  rewrite Z.add_mod_idemp_l by lia. f_equal. lia.
Qed.

Example isSaturday_known :
  isSaturday (Str "2027-06-05") = true /\
  isSaturday (Str "2027-06-06") = false /\
  isSaturday (Str "2027-02-30") = false /\
  isSaturday (Str "next Saturday") = false /\
  isSaturday Undefined = false.
Proof. repeat split. Qed.

Example formats_known :
  formatLabel (Str "2027-06-05") = "Saturday, June 5, 2027" /\
  formatShort (Str "2027-06-05") = "Jun 5".
Proof. split; reflexivity. Qed.

(** ** Values *)

Lemma strictEqStr_true v s : strictEqStr v s = true <-> v = Str s.
Proof.
  destruct v; simpl; split; try discriminate; intros H.
  - apply String.eqb_eq in H. now subst.
  - injection H as ->. apply String.eqb_refl.
Qed.

Lemma strictEqNum_true v n : strictEqNum v n = true <-> v = Num n.
Proof.
  destruct v; simpl; split; try discriminate; intros H.
  - apply Z.eqb_eq in H. now subst.
  - injection H as ->. apply Z.eqb_refl.
Qed.

Lemma getProp_object v k : nullish v = false -> getProp v k = ret (get v k).
Proof. unfold getProp. now intros ->. Qed.

Lemma Forall2_concat {A B : Type} (P : A -> B -> Prop) xss yss :
  Forall2 (Forall2 P) xss yss ->
  Forall2 P (List.concat xss) (List.concat yss).
Proof.
  induction 1 as [| xs ys xss yss H _ IH]; simpl; [constructor |].
  now apply Forall2_app.
Qed.

(** ** The fetcher *)

Lemma ok_true resp : 200 <= httpStatus resp <= 299 -> ok resp = true.
Proof. intros H. unfold ok. apply andb_true_iff. lia. Qed.

Lemma ok_false resp :
  httpStatus resp < 200 \/ 299 < httpStatus resp -> ok resp = false.
Proof. intros H. unfold ok. apply andb_false_iff. lia. Qed.

Lemma fetchRange_trace w startDate endDate :
  trace (fetchRange w startDate endDate) =
  [Fetch (rangeRequest startDate endDate)].
Proof.
  unfold fetchRange, awaitFetch, awaitJson.
  destruct (fetch w (rangeRequest startDate endDate)) as [e | resp];
    [reflexivity |].
  simpl. destruct (ok resp); simpl; [| reflexivity].
  destruct (json resp) as [data | e]; simpl; [| reflexivity].
  destruct (strictEqStr (responseCode data) "0000"); reflexivity.
Qed.

Lemma fetchRange_responded w startDate endDate resp :
  fetch w (rangeRequest startDate endDate) = Responded resp ->
  result (fetchRange w startDate endDate) =
  if ok resp then
    match json resp with
    | Parsed data =>
        if strictEqStr (responseCode data) "0000"
        then Returns (coalesce (dailyDetails data) (Arr []))
        else Throws (mkExn "Error"
                       ("API error for range " ++ startDate ++ "–" ++ endDate ++
                        ": " ++ toString (responseMessage data)))
    | Unparsable e => Throws e
    end
  else Throws (mkExn "Error"
                 ("API returned HTTP " ++ decimal (httpStatus resp) ++
                  " for range " ++ startDate ++ "–" ++ endDate)).
Proof.
  intros Hw. unfold fetchRange, awaitFetch, awaitJson. rewrite Hw. simpl.
  destruct (ok resp); simpl; [| reflexivity].
  destruct (json resp) as [data | e]; simpl; [| reflexivity].
  destruct (strictEqStr (responseCode data) "0000"); reflexivity.
Qed.

Lemma chunkFails_throws w chunk :
  chunkFails w chunk ->
  exists e, result (fetchRange w (fst chunk) (snd chunk)) = Throws e.
Proof.
  intros (resp & Hresp & Hbad).
  rewrite (fetchRange_responded _ _ _ _ Hresp).
  destruct (ok resp); [| eauto].
  destruct Hbad as [Hok | (data & Hj & Hcode)]; [discriminate |].
  rewrite Hj.
  destruct (strictEqStr (responseCode data) "0000") eqn:Heq; [| eauto].
  apply strictEqStr_true in Heq. contradiction.
Qed.

(** ** The first loop *)

Lemma spread_trace details : trace (spread details) = [].
Proof. destruct details; reflexivity. Qed.

Lemma fetchChunks_returns w ranges : forall chunks allDetails,
  Forall2 (chunkReturns w) ranges chunks ->
  fetchChunks w ranges allDetails =
  (List.map chunkRequest ranges, Returns (allDetails ++ List.concat chunks)%list).
Proof.
  induction ranges as [| [s e] rest IH]; intros chunks acc H;
    inversion H as [| c items ? chunks' Hc Hrest]; subst; simpl.
  - now rewrite app_nil_r.
  - unfold chunkReturns in Hc. simpl in Hc.
    rewrite (bind_returns _ _ [Fetch (rangeRequest s e)] (Arr items)).
    2:{ rewrite (surjective_run (fetchRange w s e)).
        now rewrite fetchRange_trace, Hc. }
    simpl. rewrite (IH chunks' (acc ++ items)%list Hrest). simpl.
    now rewrite <- app_assoc.
Qed.

Lemma fetchChunks_gets w ranges : forall allDetails,
  Forall (fun ev => isGet ev = true) (trace (fetchChunks w ranges allDetails)).
Proof.
  induction ranges as [| [s e] rest IH]; intros acc; simpl.
  - constructor.
  - rewrite bind_trace_result, fetchRange_trace.
    destruct (result (fetchRange w s e)) as [details | err]; simpl.
    + constructor; [reflexivity |].
      rewrite bind_trace_result, spread_trace.
      destruct (result (spread details)) as [items | err]; simpl.
      * apply IH.
      * constructor.
    + repeat constructor.
Qed.

Lemma fetchChunks_throws w ranges chunk : forall allDetails,
  In chunk ranges ->
  (exists e, result (fetchRange w (fst chunk) (snd chunk)) = Throws e) ->
  exists e, result (fetchChunks w ranges allDetails) = Throws e.
Proof.
  induction ranges as [| [s e] rest IH]; intros acc Hin [err Herr];
    [contradiction |].
  simpl. rewrite bind_trace_result.
  destruct (result (fetchRange w s e)) as [details | err'] eqn:Hr; simpl.
  - rewrite bind_trace_result.
    destruct (result (spread details)) as [items | err'']; simpl.
    + destruct Hin as [<- | Hin].
      * simpl in Herr. congruence.
      * apply IH; eauto.
    + eauto.
  - eauto.
Qed.

(** ** The second loop *)

Lemma toPrimitive_convertible v :
  convertible v = true -> toPrimitive v = ret tt.
Proof. unfold toPrimitive. now intros ->. Qed.

Lemma toPrimitive_trace v : trace (toPrimitive v) = [].
Proof. unfold toPrimitive. destruct (convertible v); reflexivity. Qed.

Lemma isAvailable_typed entry r :
  conforms entry r -> isAvailable entry = ([], Returns (specAvailable r)).
Proof.
  intros (Hn & _ & Hs & Ht).
  unfold isAvailable, specAvailable, hasSlots.
  rewrite (getProp_object _ _ Hn), bind_ret, Hs. simpl strictEqNum.
  destruct (status r =? STATUS_AVAILABLE); [| reflexivity].
  rewrite (getProp_object _ _ Hn), bind_ret, Ht.
  rewrite getProp_object, bind_ret by reflexivity.
  simpl. destruct (times r); reflexivity.
Qed.

Lemma isAvailable_trace entry : trace (isAvailable entry) = [].
Proof.
  unfold isAvailable, getProp.
  destruct (nullish entry); [reflexivity |]. rewrite bind_ret.
  destruct (strictEqNum (get entry "status") STATUS_AVAILABLE);
    [| reflexivity].
  rewrite bind_ret.
  destruct (nullish (get entry "times")); [reflexivity |].
  rewrite bind_ret. unfold toPrimitive.
  destruct (convertible (get (get entry "times") "length"));
    [now rewrite bind_ret | reflexivity].
Qed.

Lemma isAvailable_other_status entry :
  nullish entry = false ->
  get entry "status" <> Num STATUS_AVAILABLE ->
  isAvailable entry = ([], Returns false).
Proof.
  intros Hobj Hstatus. unfold isAvailable.
  rewrite (getProp_object _ _ Hobj), bind_ret.
  destruct (strictEqNum (get entry "status") STATUS_AVAILABLE) eqn:Heq;
    [| reflexivity].
  apply strictEqNum_true in Heq. contradiction.
Qed.

Lemma isAvailable_some_times entry :
  nullish entry = false ->
  nullish (get entry "times") = false ->
  convertible (get (get entry "times") "length") = true ->
  exists b, isAvailable entry = ([], Returns b).
Proof.
  intros Hobj Htimes Hlen. unfold isAvailable.
  rewrite (getProp_object _ _ Hobj), bind_ret.
  destruct (strictEqNum (get entry "status") STATUS_AVAILABLE);
    [| eexists; reflexivity].
  rewrite (getProp_object _ _ Hobj), bind_ret.
  rewrite (getProp_object _ _ Htimes), bind_ret.
  rewrite (toPrimitive_convertible _ Hlen), bind_ret. eexists; reflexivity.
Qed.

Lemma convertible_length ts :
  match ts with
  | Arr _ | Str _ | Num _ | Bool _ => True
  | _ => False
  end ->
  nullish ts = false /\ convertible (get ts "length") = true.
Proof. destruct ts; simpl; intros H; try contradiction; split; reflexivity. Qed.

Lemma isAvailable_bad_length entry :
  nullish entry = false ->
  get entry "status" = Num STATUS_AVAILABLE ->
  nullish (get entry "times") = false ->
  convertible (get (get entry "times") "length") = false ->
  exists e, isAvailable entry = ([], Throws e).
Proof.
  intros Hobj Hstatus Htimes Hlen. unfold isAvailable.
  rewrite (getProp_object _ _ Hobj), bind_ret, Hstatus.
  cbn [strictEqNum]. unfold STATUS_AVAILABLE at 1. cbn [Z.eqb].
  rewrite (getProp_object _ _ Hobj), bind_ret.
  rewrite (getProp_object _ _ Htimes), bind_ret.
  unfold toPrimitive. rewrite Hlen. eexists; reflexivity.
Qed.

Lemma isAvailable_no_times entry :
  nullish entry = false ->
  get entry "status" = Num STATUS_AVAILABLE ->
  nullish (get entry "times") = true ->
  exists e, isAvailable entry = ([], Throws e).
Proof.
  intros Hobj Hstatus Htimes. unfold isAvailable.
  rewrite (getProp_object _ _ Hobj), bind_ret, Hstatus.
  cbn [strictEqNum]. unfold STATUS_AVAILABLE at 1. cbn [Z.eqb].
  rewrite (getProp_object _ _ Hobj), bind_ret.
  unfold getProp. rewrite Htimes. eexists; reflexivity.
Qed.

(** One turn of the loop. *)
Lemma classify_cons entry rest available :
  classify (entry :: rest) available =
  (d <- getProp entry "date" ;;
   toPrimitive d ;;
   if negb (isSaturday d) then classify rest available
   else
     avail <- isAvailable entry ;;
     if avail then
       logger.info ("  AVAILABLE on " ++ formatLabel d) ;;
       classify rest (available ++ [d])%list
     else
       logger.info ("  Not available on " ++ formatLabel d) ;;
       classify rest available).
Proof. reflexivity. Qed.

Lemma classify_typed entries rs : forall available,
  Forall2 conforms entries rs ->
  classify entries available =
  (List.map dispositionLine (List.filter onTargetWeekday rs),
   Returns (available ++ List.map dateValue (List.filter reported rs))%list).
Proof.
  intros available H. revert available.
  induction H as [| entry r entries rs Hc _ IH]; intros available.
  - simpl. now rewrite app_nil_r.
  - pose proof Hc as (Hn & Hd & _).
    rewrite classify_cons, (getProp_object _ _ Hn), bind_ret, Hd.
    rewrite toPrimitive_convertible, bind_ret by reflexivity.
    cbn [List.filter]. unfold reported at 1.
    change (onTargetWeekday r) with (isSaturday (Str (date r))).
    destruct (isSaturday (Str (date r))); cbn [negb andb List.map].
    + rewrite (bind_returns _ _ [] (specAvailable r) (isAvailable_typed _ _ Hc)).
      unfold dispositionLine at 1, dateValue at 1.
      destruct (specAvailable r); rewrite bind_info, IH;
        cbn [List.map trace result fst snd app].
      * unfold dateValue at 2. now rewrite <- app_assoc.
      * reflexivity.
    + apply IH.
Qed.

Lemma classify_stdout entries : forall available,
  Forall (fun ev => isStdout ev = true) (trace (classify entries available)).
Proof.
  induction entries as [| entry rest IH]; intros available;
    [constructor |].
  rewrite classify_cons. unfold getProp at 1.
  destruct (nullish entry); [constructor |].
  rewrite bind_ret. unfold toPrimitive.
  destruct (convertible (get entry "date")); [| constructor].
  rewrite bind_ret.
  destruct (isSaturday (get entry "date")); cbn [negb]; [| apply IH].
  rewrite bind_trace_result, isAvailable_trace.
  destruct (result (isAvailable entry)) as [[|] | e];
    try rewrite bind_info; cbn [trace fst app];
    try constructor; try reflexivity; apply IH.
Qed.

(** Whatever the entries hold, a returned list extends the accumulator by
    Saturday dates taken in order from the entries. *)
Lemma classify_result entries : forall available out,
  result (classify entries available) = Returns out ->
  exists added,
    out = (available ++ added)%list /\
    Subseq added (List.map (fun entry => get entry "date") entries) /\
    Forall (fun d => isSaturday d = true) added.
Proof.
  induction entries as [| entry rest IH]; intros available out.
  - intros [= <-]. exists []. rewrite app_nil_r. repeat constructor.
  - rewrite classify_cons. unfold getProp at 1.
    destruct (nullish entry); [discriminate |].
    rewrite bind_ret. unfold toPrimitive.
    destruct (convertible (get entry "date")); [| discriminate].
    rewrite bind_ret.
    destruct (isSaturday (get entry "date")) eqn:Hsat; cbn [negb].
    + rewrite bind_trace_result.
      destruct (result (isAvailable entry)) as [[|] | e];
        try discriminate; rewrite bind_info; cbn [result snd]; intros H;
        destruct (IH _ _ H) as (added & -> & Hsub & Hall).
      * exists (get entry "date" :: added). rewrite <- app_assoc.
        repeat split; [now constructor | now constructor].
      * exists added. repeat split; [now constructor | assumption].
    + intros H. destruct (IH _ _ H) as (added & -> & Hsub & Hall).
      exists added. repeat split; [now constructor | assumption].
Qed.

Lemma classify_throws entry entries : forall available,
  In entry entries ->
  nullish entry = false ->
  isSaturday (get entry "date") = true ->
  get entry "status" = Num STATUS_AVAILABLE ->
  nullish (get entry "times") = true ->
  exists e, result (classify entries available) = Throws e.
Proof.
  intros available Hin Hobj Hsat Hstatus Htimes. revert available Hin.
  destruct (isAvailable_no_times entry Hobj Hstatus Htimes) as (err & Herr).
  induction entries as [| head rest IH]; intros available Hin;
    [contradiction |].
  rewrite classify_cons. unfold getProp at 1.
  destruct (nullish head) eqn:Hhead; [eexists; reflexivity |].
  rewrite bind_ret. unfold toPrimitive.
  destruct (convertible (get head "date")); [| eexists; reflexivity].
  rewrite bind_ret.
  destruct (isSaturday (get head "date")) eqn:Hday; cbn [negb].
  - rewrite bind_trace_result.
    destruct (result (isAvailable head)) as [avail | e] eqn:Havail;
      [| eexists; reflexivity].
    destruct Hin as [-> | Hin]; [rewrite Herr in Havail; discriminate |].
    destruct avail; rewrite bind_info; cbn [result snd]; now apply IH.
  - destruct Hin as [-> | Hin]; [congruence |]. now apply IH.
Qed.

(** ** The checker *)

Lemma checkAvailability_fetched w allDetails :
  result (fetchChunks w DATE_RANGES []) = Returns allDetails ->
  checkAvailability w =
  ((trace (fetchChunks w DATE_RANGES []) ++ warnIfEmpty allDetails ++
    trace (classify allDetails []))%list,
   result (classify allDetails [])).
Proof.
  intros H. unfold checkAvailability.
  rewrite bind_trace_result, H.
  destruct allDetails as [| entry rest]; cbn [List.length Nat.eqb warnIfEmpty].
  - unfold logger.warn, log, emit. cbn [bind].
    rewrite (surjective_run (classify [] [])). reflexivity.
  - rewrite bind_ret. reflexivity.
Qed.

Lemma checkAvailability_sweep w chunks :
  sweepReturns w chunks ->
  checkAvailability w =
  ((List.map chunkRequest DATE_RANGES ++ warnIfEmpty (List.concat chunks) ++
    trace (classify (List.concat chunks) []))%list,
   result (classify (List.concat chunks) [])).
Proof.
  intros H. pose proof (fetchChunks_returns w _ _ [] H) as Hf.
  rewrite (checkAvailability_fetched w (List.concat chunks)).
  - now rewrite Hf.
  - now rewrite Hf.
Qed.

Lemma checkAvailability_fetch_throws w e :
  result (fetchChunks w DATE_RANGES []) = Throws e ->
  checkAvailability w = (trace (fetchChunks w DATE_RANGES []), Throws e).
Proof.
  intros H. unfold checkAvailability. now rewrite bind_trace_result, H.
Qed.

(** The checker talks to the API and to the log, never to a notifier. *)
Lemma checkAvailability_quiet w :
  Forall (fun ev => isNotification ev = false) (trace (checkAvailability w)).
Proof.
  pose proof (fetchChunks_gets w DATE_RANGES []) as Hg.
  assert (Hq : Forall (fun ev => isNotification ev = false)
                 (trace (fetchChunks w DATE_RANGES []))).
  { eapply Forall_impl; [| exact Hg]. apply isGet_not_notification. }
  destruct (result (fetchChunks w DATE_RANGES [])) as [allDetails | e] eqn:Hr.
  - rewrite (checkAvailability_fetched w allDetails Hr). cbn [trace fst].
    apply Forall_app; split; [exact Hq |].
    apply Forall_app; split.
    + destruct allDetails; repeat constructor.
    + eapply Forall_impl; [| apply classify_stdout].
      apply isStdout_not_notification.
  - now rewrite (checkAvailability_fetch_throws w e Hr).
Qed.

Lemma notifications_checker w :
  notifications (trace (checkAvailability w)) = [].
Proof. apply notifications_none, checkAvailability_quiet. Qed.

(** The notifications of a run are those that follow the checker. *)
Lemma notifications_after_checker w rest :
  notifications (banner :: trace (checkAvailability w) ++ rest) =
  notifications rest.
Proof.
  change (banner :: trace (checkAvailability w) ++ rest)%list
    with ([banner] ++ trace (checkAvailability w) ++ rest)%list.
  now rewrite !notifications_app, notifications_checker.
Qed.

Lemma checkAvailability_returns_inv w available :
  result (checkAvailability w) = Returns available ->
  exists allDetails,
    result (fetchChunks w DATE_RANGES []) = Returns allDetails /\
    result (classify allDetails []) = Returns available.
Proof.
  destruct (result (fetchChunks w DATE_RANGES [])) as [allDetails | e] eqn:Hr.
  - rewrite (checkAvailability_fetched w allDetails Hr). eauto.
  - now rewrite (checkAvailability_fetch_throws w e Hr).
Qed.

(** On typed records fetched from every chunk the checker is a filter. *)
Lemma checkAvailability_typed w chunks rss :
  sweepReturns w chunks ->
  Forall2 (Forall2 conforms) chunks rss ->
  checkAvailability w =
  ((List.map chunkRequest DATE_RANGES ++
    warnIfEmpty (List.concat chunks) ++
    List.map dispositionLine
      (List.filter onTargetWeekday (List.concat rss)))%list,
   Returns (List.map dateValue (List.filter reported (List.concat rss)))).
Proof.
  intros Hsweep Htyped.
  rewrite (checkAvailability_sweep w chunks Hsweep).
  now rewrite (classify_typed _ _ [] (Forall2_concat _ _ _ Htyped)).
Qed.

Lemma reported_iff r :
  reported r = true <->
  isSaturday (Str (date r)) = true /\
  status r = STATUS_AVAILABLE /\ times r <> [].
Proof.
  unfold reported, onTargetWeekday, specAvailable, hasSlots.
  rewrite !andb_true_iff, Z.eqb_eq.
  destruct (times r); intuition congruence.
Qed.

(** ** The notifiers and the entry point *)

Lemma sendNotification_run w title message :
  sendNotification w title message =
  match spawnSync w (alertArgv title message) with
  | Exited exitCode =>
      ([Spawn (alertArgv title message); alertLine exitCode], Returns tt)
  | Killed _ =>
      ([Spawn (alertArgv title message); killedLine], Returns tt)
  | SpawnFailed e => ([Spawn (alertArgv title message)], Throws e)
  end.
Proof.
  unfold sendNotification, bunSpawnSync, alertArgv, alertLine.
  destruct (spawnSync w _) as [e | exitCode | sig]; [reflexivity | | reflexivity].
  cbn [bind strictEqNum toString]. destruct (negb (exitCode =? 0)); reflexivity.
Qed.

Lemma sendNtfy_run w title message :
  sendNtfy w title message =
  match fetch w (ntfyRequest title message) with
  | Responded resp =>
      ([Fetch (ntfyRequest title message); pushLine resp], Returns tt)
  | Rejected e => ([Fetch (ntfyRequest title message)], Throws e)
  end.
Proof.
  unfold sendNtfy, awaitFetch, pushLine.
  destruct (fetch w _) as [e | resp]; [reflexivity |].
  cbn [bind]. destruct (negb (ok resp)); reflexivity.
Qed.

Lemma run_fatal w e :
  result (checkAvailability w) = Throws e ->
  run w = ((banner :: trace (checkAvailability w) ++ [fatalLine e])%list, 1).
Proof.
  intros H. unfold run, main. rewrite bind_info.
  rewrite bind_trace_result, H. reflexivity.
Qed.

Lemma run_available w available :
  result (checkAvailability w) = Returns available ->
  available <> [] ->
  run w =
  match spawnSync w (alertArgv availableTitle (availableBody available)) with
  | SpawnFailed e =>
      ((banner :: trace (checkAvailability w) ++
        [foundLine available;
         Spawn (alertArgv availableTitle (availableBody available));
         fatalLine e])%list, 1)
  | answered =>
      let line :=
        match answered with
        | Exited exitCode => alertLine exitCode
        | _ => killedLine
        end in
      match fetch w (ntfyRequest availableTitle (availableBody available)) with
      | Rejected e =>
          ((banner :: trace (checkAvailability w) ++
            [foundLine available;
             Spawn (alertArgv availableTitle (availableBody available));
             line;
             Fetch (ntfyRequest availableTitle (availableBody available));
             fatalLine e])%list, 1)
      | Responded resp =>
          ((banner :: trace (checkAvailability w) ++
            [foundLine available;
             Spawn (alertArgv availableTitle (availableBody available));
             line;
             Fetch (ntfyRequest availableTitle (availableBody available));
             pushLine resp;
             completeLine])%list, 0)
      end
  end.
Proof.
  intros H Hne. unfold run, main. rewrite bind_info.
  rewrite bind_trace_result, H.
  destruct available as [| d rest]; [congruence |].
  cbn [List.length Nat.ltb Nat.leb].
  rewrite bind_trace_result, bind_info.
  fold availableTitle. fold (availableBody (d :: rest)).
  rewrite bind_trace_result, sendNotification_run, sendNtfy_run.
  destruct (spawnSync w _) as [e | exitCode | sig];
    [cbn [trace result fst snd app]; rewrite <- ?app_assoc; reflexivity | |];
    cbv zeta;
    (destruct (fetch w _) as [e | resp];
     cbn [trace result fst snd app]; rewrite <- ?app_assoc; reflexivity).
Qed.

Lemma run_unavailable w :
  result (checkAvailability w) = Returns [] ->
  run w =
  match fetch w (ntfyRequest unavailableTitle unavailableBody) with
  | Rejected e =>
      ((banner :: trace (checkAvailability w) ++
        [Fetch (ntfyRequest unavailableTitle unavailableBody);
         fatalLine e])%list, 1)
  | Responded resp =>
      ((banner :: trace (checkAvailability w) ++
        [Fetch (ntfyRequest unavailableTitle unavailableBody);
         pushLine resp;
         Stdout "INFO" unavailableBody;
         completeLine])%list, 0)
  end.
Proof.
  intros H. unfold run, main. rewrite bind_info.
  rewrite bind_trace_result, H.
  cbn [List.length Nat.ltb Nat.leb].
  rewrite bind_trace_result, bind_trace_result, sendNtfy_run.
  fold unavailableTitle. fold unavailableBody.
  destruct (fetch w _) as [e | resp];
    cbn [trace result fst snd app bind logger.info log emit];
    rewrite <- ?app_assoc; reflexivity.
Qed.

(** * The claims *)

(** ** The configured chunks *)

(** C9: every configured chunk starts no later than it ends and spans at
    most 44 days, and the configured chunks do not overlap: each one ends
    before the next one starts. *)
Theorem date_ranges_well_formed :
  Forall wellFormedChunk DATE_RANGES /\
  ForallOrdPairs chunkBefore DATE_RANGES.
Proof.
  split.
  - repeat constructor;
      eexists _, _; (split; [split; vm_compute; reflexivity |]); lia.
  - repeat constructor;
      eexists _, _, _, _;
      (split; [split; vm_compute; reflexivity |]);
      (split; [split; vm_compute; reflexivity |]); lia.
Qed.

(** ** The fetcher's three outcomes *)

(** C5: for every start/end pair and every response that arrives: a status
    outside 200-299 makes the fetcher throw an [Error]; a parsed body whose
    [headers.response_code] is not the string [0000] makes it throw an
    [Error]; otherwise it returns [body.details.daily_details] as it is, and
    the empty array when that field is absent ([undefined] or [null]).  A
    2xx response whose body is not JSON carries no response code and makes
    the fetcher throw too. *)
Theorem fetchRange_outcomes w startDate endDate resp
    (Hresp : fetch w (rangeRequest startDate endDate) = Responded resp) :
  (httpStatus resp < 200 \/ 299 < httpStatus resp ->
   exists msg,
     result (fetchRange w startDate endDate) = Throws (mkExn "Error" msg)) /\
  (forall data,
     200 <= httpStatus resp <= 299 ->
     json resp = Parsed data ->
     responseCode data <> Str "0000" ->
     exists msg,
       result (fetchRange w startDate endDate) = Throws (mkExn "Error" msg)) /\
  (forall data,
     200 <= httpStatus resp <= 299 ->
     json resp = Parsed data ->
     responseCode data = Str "0000" ->
     (nullish (dailyDetails data) = false ->
      result (fetchRange w startDate endDate) = Returns (dailyDetails data)) /\
     (nullish (dailyDetails data) = true ->
      result (fetchRange w startDate endDate) = Returns (Arr []))) /\
  (forall e,
     200 <= httpStatus resp <= 299 ->
     json resp = Unparsable e ->
     result (fetchRange w startDate endDate) = Throws e).
Proof.
  rewrite (fetchRange_responded _ _ _ _ Hresp).
  split; [| split; [| split]].
  - intros Hs. rewrite (ok_false _ Hs). eauto.
  - intros data Hs Hj Hc. rewrite (ok_true _ Hs), Hj.
    destruct (strictEqStr (responseCode data) "0000") eqn:Heq; [| eauto].
    apply strictEqStr_true in Heq. contradiction.
  - intros data Hs Hj Hc.
    rewrite (ok_true _ Hs), Hj, (proj2 (strictEqStr_true _ _) Hc).
    unfold coalesce. split; intros Hn; now rewrite Hn.
  - intros e Hs Hj. now rewrite (ok_true _ Hs), Hj.
Qed.

Lemma fetchRange_outcomes_witness :
  result (fetchRange scenarioC "2027-06-01" "2027-07-14") =
    Returns (Arr [recordValue (openOn "2027-06-05")]) /\
  (exists msg,
     result (fetchRange scenarioC "2027-07-15" "2027-08-27") =
       Throws (mkExn "Error" msg)) /\
  result (fetchRange (scenarioEmpty pushAccepted) "2027-06-01" "2027-07-14") =
    Returns (Arr []).
Proof.
  split; [| split].
  - destruct (fetchRange_outcomes scenarioC "2027-06-01" "2027-07-14"
                {| httpStatus := 200;
                   json := Parsed
                     (envelope (Arr [recordValue (openOn "2027-06-05")])) |}
                eq_refl) as (_ & _ & Hreturns & _).
    apply (Hreturns _ ltac:(simpl; lia) eq_refl eq_refl). reflexivity.
  - destruct (fetchRange_outcomes scenarioC "2027-07-15" "2027-08-27"
                {| httpStatus := 500; json := Parsed Null |} eq_refl)
      as (Hstatus & _).
    apply Hstatus. simpl. lia.
  - destruct (fetchRange_outcomes (scenarioEmpty pushAccepted)
                "2027-06-01" "2027-07-14"
                {| httpStatus := 200; json := Parsed headersOnly |}
                eq_refl) as (_ & _ & Hreturns & _).
    apply (Hreturns _ ltac:(simpl; lia) eq_refl eq_refl). reflexivity.
Defined.

(** ** Which records are reported *)

(** C1, as stated, fails: an open Sunday (status 0, one slot) is fetched and
    its date is not returned. *)
Lemma open_sunday_not_reported :
  ~ (forall w chunks rss,
       sweepReturns w chunks ->
       Forall2 (Forall2 conforms) chunks rss ->
       exists available,
         result (checkAvailability w) = Returns available /\
         forall r,
           In r (List.concat rss) ->
           (In (dateValue r) available <->
            status r = STATUS_AVAILABLE /\ times r <> [])).
Proof.
  intros Hclaim.
  destruct (Hclaim scenarioWeek
              [List.map recordValue
                 [openOn "2027-06-05"; openOn "2027-06-06";
                  closedOn "2027-06-12"]; []; []]
              [[openOn "2027-06-05"; openOn "2027-06-06";
                closedOn "2027-06-12"]; []; []])
    as (available & Hrun & Hiff).
  - repeat constructor.
  - repeat constructor.
  - injection Hrun as <-.
    destruct (proj2 (Hiff (openOn "2027-06-06") (or_intror (or_introl eq_refl))))
      as [Heq | []].
    + split; [reflexivity | discriminate].
    + discriminate Heq.
Qed.

(** C1, amended: on typed records fetched from every chunk, the returned
    list is exactly the dates of the records whose date falls on a Saturday
    and whose status is the available sentinel 0 and whose time-slot list is
    non-empty, one entry per such record; so a date is returned if and only
    if some record carrying it meets all three conditions.  In particular a
    record with status 0 and no slot, and a record with another status and
    some slots, contribute nothing. *)
Theorem reported_iff_saturday_status_slots w chunks rss
    (Hsweep : sweepReturns w chunks)
    (Htyped : Forall2 (Forall2 conforms) chunks rss) :
  exists available,
    result (checkAvailability w) = Returns available /\
    available = List.map dateValue (List.filter reported (List.concat rss)) /\
    (forall r, reported r = true <->
       isSaturday (Str (date r)) = true /\
       status r = STATUS_AVAILABLE /\ times r <> []) /\
    (forall d,
       In (Str d) available <->
       exists r,
         In r (List.concat rss) /\ date r = d /\
         isSaturday (Str d) = true /\
         status r = STATUS_AVAILABLE /\ times r <> []).
Proof.
  exists (List.map dateValue (List.filter reported (List.concat rss))).
  rewrite (checkAvailability_typed w chunks rss Hsweep Htyped).
  split; [reflexivity |]. split; [reflexivity |].
  split; [apply reported_iff |].
  intros d. rewrite in_map_iff. split.
  - intros (r & [= <-] & Hin). apply filter_In in Hin as [Hin Hrep].
    apply reported_iff in Hrep. exists r. tauto.
  - intros (r & Hin & <- & Hrep). exists r. split; [reflexivity |].
    apply filter_In. split; [exact Hin |]. now apply reported_iff.
Qed.

Lemma reported_iff_saturday_status_slots_witness :
  exists available,
    result (checkAvailability scenarioWeek) = Returns available /\
    (In (Str "2027-06-05") available /\
     ~ In (Str "2027-06-06") available /\
     ~ In (Str "2027-06-12") available).
Proof.
  destruct (reported_iff_saturday_status_slots scenarioWeek
              [List.map recordValue
                 [openOn "2027-06-05"; openOn "2027-06-06";
                  closedOn "2027-06-12"]; []; []]
              [[openOn "2027-06-05"; openOn "2027-06-06";
                closedOn "2027-06-12"]; []; []])
    as (available & Hrun & Heq & _ & _).
  - repeat constructor.
  - repeat constructor.
  - exists available. split; [exact Hrun |]. subst available.
    vm_compute. intuition discriminate.
Defined.

(** C2: a date that does not fall on a Saturday (by the weekday of the date
    string with a noon time appended) is never in the list the checker
    returns, whatever the records' status and time slots. *)
Theorem non_saturday_never_reported w available d
    (Hrun : result (checkAvailability w) = Returns available)
    (Hday : isSaturday d = false) :
  ~ In d available.
Proof.
  destruct (checkAvailability_returns_inv w available Hrun)
    as (allDetails & _ & Hclass).
  destruct (classify_result _ _ _ Hclass) as (added & -> & _ & Hsat).
  simpl. intros Hin.
  rewrite Forall_forall in Hsat. specialize (Hsat d Hin). congruence.
Qed.

Lemma non_saturday_never_reported_witness :
  result (checkAvailability scenarioWeek) = Returns [Str "2027-06-05"] /\
  ~ In (Str "2027-06-06") [Str "2027-06-05"].
Proof.
  split; [reflexivity |].
  apply (non_saturday_never_reported scenarioWeek); reflexivity.
Defined.

(** C7: the chunks are fetched in the configured order and their record
    lists are concatenated in that order; the returned list is a
    subsequence, in order, of the dates of the concatenated records; on
    typed records it is exactly the dates of the reported ones, one per
    record, neither sorted nor deduplicated, so a date reported by two
    chunks appears twice. *)
Theorem order_preserved w chunks available
    (Hsweep : sweepReturns w chunks)
    (Hrun : result (checkAvailability w) = Returns available) :
  List.filter isGet (trace (checkAvailability w)) =
    List.map chunkRequest DATE_RANGES /\
  result (fetchChunks w DATE_RANGES []) = Returns (List.concat chunks) /\
  Subseq available
    (List.map (fun entry => get entry "date") (List.concat chunks)) /\
  (forall rss,
     Forall2 (Forall2 conforms) chunks rss ->
     available = List.map dateValue (List.filter reported (List.concat rss))).
Proof.
  rewrite (checkAvailability_sweep w chunks Hsweep) in Hrun |- *.
  rewrite (fetchChunks_returns w _ _ [] Hsweep).
  cbn [trace result fst snd app] in *.
  split; [| split; [reflexivity | split]].
  - rewrite !filter_app.
    rewrite (filter_isGet_stdout (trace (classify _ _)))
      by apply classify_stdout.
    destruct (List.concat chunks); reflexivity.
  - destruct (classify_result _ _ _ Hrun) as (added & -> & Hsub & _).
    exact Hsub.
  - intros rss Htyped.
    rewrite (classify_typed _ _ [] (Forall2_concat _ _ _ Htyped)) in Hrun.
    cbn [result snd app] in Hrun. congruence.
Qed.

Lemma order_preserved_witness :
  result (checkAvailability scenarioOverlap) =
    Returns [Str "2027-06-05"; Str "2027-06-12"; Str "2027-06-05"] /\
  Subseq [Str "2027-06-05"; Str "2027-06-12"; Str "2027-06-05"]
    [Str "2027-06-05"; Str "2027-06-12"; Str "2027-06-05"].
Proof.
  split; [reflexivity |].
  apply (order_preserved scenarioOverlap
           [[recordValue (openOn "2027-06-05");
             recordValue (openOn "2027-06-12")];
            [recordValue (openOn "2027-06-05")]; []]
           [Str "2027-06-05"; Str "2027-06-12"; Str "2027-06-05"]).
  - repeat constructor.
  - reflexivity.
Defined.

(** ** Fatal runs *)

(** C4: when the fetch of any configured chunk fails (a response that is not
    2xx, or a body whose response code is not [0000]), the checker throws
    and returns no list; the run consists of the banner, GET requests, and
    one line [Fatal: ...] logged at error level by the top-level handler;
    no notification is attempted; the exit code is 1. *)
Theorem failed_chunk_is_fatal w chunk
    (Hin : In chunk DATE_RANGES)
    (Hfail : chunkFails w chunk) :
  exists gets e,
    checkAvailability w = (gets, Throws e) /\
    Forall (fun ev => isGet ev = true) gets /\
    run w =
      ((banner :: gets ++ [Stdout "ERROR" ("Fatal: " ++ message e)])%list, 1) /\
    notifications (fst (run w)) = [].
Proof.
  destruct (fetchChunks_throws w DATE_RANGES chunk [] Hin
              (chunkFails_throws w chunk Hfail)) as (e & He).
  pose proof (checkAvailability_fetch_throws w e He) as Hcheck.
  exists (trace (fetchChunks w DATE_RANGES [])), e.
  split; [exact Hcheck |]. split; [apply fetchChunks_gets |].
  assert (Hrun : run w =
    ((banner :: trace (fetchChunks w DATE_RANGES []) ++
      [Stdout "ERROR" ("Fatal: " ++ message e)])%list, 1)).
  { rewrite (run_fatal w e) by now rewrite Hcheck.
    now rewrite Hcheck. }
  split; [exact Hrun |].
  rewrite Hrun. cbn [fst].
  replace (trace (fetchChunks w DATE_RANGES []))
    with (trace (checkAvailability w)) by now rewrite Hcheck.
  now rewrite notifications_after_checker.
Qed.

Lemma failed_chunk_is_fatal_witness :
  snd (run scenarioC) = 1 /\ notifications (fst (run scenarioC)) = [].
Proof.
  destruct (failed_chunk_is_fatal scenarioC ("2027-07-15", "2027-08-27"))
    as (gets & e & _ & _ & Hrun & Hquiet).
  - right. left. reflexivity.
  - exists {| httpStatus := 500; json := Parsed Null |}.
    split; [reflexivity | left; reflexivity].
  - rewrite Hrun in *. split; [reflexivity | exact Hquiet].
Defined.

(** ** Notifications *)

(** C8: a run that ends with exit code 0 got a list from the checker.  When
    the list is not empty, the notifications of the run are the local alert
    and then the remote push.  The alert is the command [osascript -e] with
    the script [display notification "<message>" with title "<title>" sound
    name "Glass"]; the push is a POST to the relay topic with the title in
    its [Title] header and the message as its body.  The title of both is
    [Brazilian Room AVAILABLE!], which contains [AVAILABLE!], and the
    message of both is [Open on: ] followed by the short forms of the dates
    joined by [ | ].  When the list is empty, the only notification is the
    remote push titled [Brazilian Room NOT AVAILABLE!] with the body [No
    availability found for any target Saturday.]. *)
Theorem notifications_of_clean_run w (Hexit : snd (run w) = 0) :
  exists available,
    result (checkAvailability w) = Returns available /\
    (available <> [] ->
     let title := "Brazilian Room AVAILABLE!" in
     let message :=
       "Open on: " ++ join " | " (List.map formatShort available) in
     notifications (fst (run w)) =
       [Spawn ["osascript"; "-e";
               "display notification " ++ dquote ++ message ++ dquote ++
               " with title " ++ dquote ++ title ++ dquote ++
               " sound name " ++ dquote ++ "Glass" ++ dquote];
        Fetch {| method := "POST";
                 url := "https://ntfy.sh/brazilian-room-pfr";
                 headers := [("Title", title); ("Priority", "high");
                             ("Tags", "calendar")];
                 body := Some message |}] /\
     contains "AVAILABLE!" title) /\
    (available = [] ->
     notifications (fst (run w)) =
       [Fetch {| method := "POST";
                 url := "https://ntfy.sh/brazilian-room-pfr";
                 headers := [("Title", "Brazilian Room NOT AVAILABLE!");
                             ("Priority", "high"); ("Tags", "calendar")];
                 body :=
                   Some "No availability found for any target Saturday." |}]).
Proof.
  destruct (result (checkAvailability w)) as [available | e] eqn:Hcheck.
  2:{ rewrite (run_fatal w e Hcheck) in Hexit. discriminate. }
  exists available. split; [reflexivity |]. split.
  - intros Hne. cbv zeta.
    rewrite (run_available w available Hcheck Hne) in Hexit |- *.
    split; [| exists "Brazilian Room ", EmptyString; reflexivity].
    destruct (spawnSync w _) as [e | exitCode | sig]; [discriminate | |];
      cbv zeta in Hexit |- *;
      (destruct (fetch w _) as [e | resp]; [discriminate |]);
      cbn [fst]; rewrite notifications_after_checker; unfold notifications;
      cbn [List.filter foundLine completeLine killedLine isNotification
             ntfyRequest method];
      rewrite ?alertLine_quiet, pushLine_quiet; reflexivity.
  - intros ->.
    rewrite (run_unavailable w Hcheck) in Hexit |- *.
    destruct (fetch w _) as [e | resp]; [discriminate |].
    cbn [fst]. rewrite notifications_after_checker. unfold notifications.
    cbn [List.filter completeLine isNotification ntfyRequest method].
    now rewrite pushLine_quiet.
Qed.

Lemma notifications_of_clean_run_witness :
  notifications (fst (run scenarioA)) =
    [Spawn ["osascript"; "-e";
            "display notification " ++ dquote ++
            "Open on: Jun 5 | Jul 17 | Aug 28" ++ dquote ++
            " with title " ++ dquote ++ "Brazilian Room AVAILABLE!" ++ dquote ++
            " sound name " ++ dquote ++ "Glass" ++ dquote];
     Fetch {| method := "POST";
              url := "https://ntfy.sh/brazilian-room-pfr";
              headers := [("Title", "Brazilian Room AVAILABLE!");
                          ("Priority", "high"); ("Tags", "calendar")];
              body := Some "Open on: Jun 5 | Jul 17 | Aug 28" |}] /\
  notifications (fst (run scenarioB)) =
    [Fetch {| method := "POST";
              url := "https://ntfy.sh/brazilian-room-pfr";
              headers := [("Title", "Brazilian Room NOT AVAILABLE!");
                          ("Priority", "high"); ("Tags", "calendar")];
              body :=
                Some "No availability found for any target Saturday." |}].
Proof.
  split.
  - destruct (notifications_of_clean_run scenarioA eq_refl)
      as (available & Hrun & Hsome & _).
    injection Hrun as <-.
    exact (proj1 (Hsome ltac:(discriminate))).
  - destruct (notifications_of_clean_run scenarioB eq_refl)
      as (available & Hrun & _ & Hnone).
    injection Hrun as <-.
    exact (Hnone eq_refl).
Defined.

(** ** Failing notifiers *)

(** C3, as stated, fails: availability is found, the push request is
    rejected, and the run ends with exit code 1. *)
Lemma unreachable_push_is_fatal :
  ~ (forall w available,
       result (checkAvailability w) = Returns available ->
       available <> [] ->
       snd (run w) = 0).
Proof.
  intros Hclaim.
  specialize (Hclaim scenarioPushDown
                [Str "2027-06-05"; Str "2027-07-17"; Str "2027-08-28"]
                eq_refl ltac:(discriminate)).
  discriminate Hclaim.
Qed.

(** C3, amended: when availability is found and each channel answers (the
    spawned command with an exit code, the push request with an HTTP
    status), a failure answer is logged at error level and not raised: the
    alert is attempted, then the push, whatever the other answered; the run
    goes on to its completion banner; the exit code is 0. *)
Theorem refused_notification_not_raised w available exitCode resp
    (Hrun : result (checkAvailability w) = Returns available)
    (Hfound : available <> [])
    (Halert :
       spawnSync w (alertArgv availableTitle (availableBody available)) =
       Exited exitCode)
    (Hpush :
       fetch w (ntfyRequest availableTitle (availableBody available)) =
       Responded resp) :
  run w =
    ((banner :: trace (checkAvailability w) ++
      [foundLine available;
       Spawn (alertArgv availableTitle (availableBody available));
       alertLine exitCode;
       Fetch (ntfyRequest availableTitle (availableBody available));
       pushLine resp;
       completeLine])%list, 0) /\
  (exitCode <> 0 ->
   alertLine exitCode =
   Stdout "ERROR"
     ("Desktop notification failed (exit code " ++ decimal exitCode ++ ")")) /\
  (ok resp = false ->
   pushLine resp =
   Stdout "ERROR"
     ("ntfy notification failed (HTTP " ++ decimal (httpStatus resp) ++ ")")).
Proof.
  split; [| split].
  - now rewrite (run_available w available Hrun Hfound), Halert, Hpush.
  - intros Hcode. unfold alertLine.
    now rewrite (proj2 (Z.eqb_neq exitCode 0) Hcode).
  - intros Hok. unfold pushLine. now rewrite Hok.
Qed.

Lemma refused_notification_not_raised_witness :
  snd (run scenarioBothRefuse) = 0 /\
  notifications (fst (run scenarioBothRefuse)) =
    [Spawn (alertArgv "Brazilian Room AVAILABLE!"
              "Open on: Jun 5 | Jul 17 | Aug 28");
     Fetch (ntfyRequest "Brazilian Room AVAILABLE!"
              "Open on: Jun 5 | Jul 17 | Aug 28")] /\
  In (Stdout "ERROR" "Desktop notification failed (exit code 1)")
    (fst (run scenarioBothRefuse)) /\
  In (Stdout "ERROR" "ntfy notification failed (HTTP 503)")
    (fst (run scenarioBothRefuse)).
Proof.
  destruct (refused_notification_not_raised scenarioBothRefuse
              [Str "2027-06-05"; Str "2027-07-17"; Str "2027-08-28"]
              1 {| httpStatus := 503; json := Parsed Null |}
              eq_refl ltac:(discriminate) eq_refl eq_refl)
    as (Hrun & _ & _).
  rewrite Hrun. vm_compute. intuition.
Defined.

(** ** An empty sweep *)

(** C6, as stated, fails: every chunk is fetched, no record comes back, the
    push request is rejected, and the run ends with exit code 1. *)
Lemma empty_sweep_unreachable_push :
  ~ (forall w chunks,
       sweepReturns w chunks ->
       List.concat chunks = [] ->
       snd (run w) = 0).
Proof.
  intros Hclaim.
  specialize (Hclaim (scenarioEmpty pushUnreachable) [[]; []; []]).
  discriminate Hclaim; [repeat constructor | reflexivity].
Qed.

(** C6, amended: when every configured chunk is fetched and the concatenated
    list is empty, the checker logs the warning after its requests, throws
    nothing and returns the empty list; the only notification of the run is
    the remote push with the fixed message; and when that push request gets
    a response, of any status, the run logs the outcome and its completion
    banner and ends with exit code 0.  The push is a POST to the relay topic
    with the not-available title in its [Title] header and the fixed message
    as its body. *)
Theorem empty_sweep_completes w chunks
    (Hsweep : sweepReturns w chunks)
    (Hempty : List.concat chunks = []) :
  checkAvailability w =
    ((List.map chunkRequest DATE_RANGES ++ [emptyWarning])%list, Returns []) /\
  notifications (fst (run w)) =
    [Fetch (ntfyRequest (RESOURCE_NAME ++ " NOT AVAILABLE!")
              "No availability found for any target Saturday.")] /\
  (forall resp,
     fetch w (ntfyRequest (RESOURCE_NAME ++ " NOT AVAILABLE!")
                "No availability found for any target Saturday.") =
     Responded resp ->
     run w =
       ((banner :: trace (checkAvailability w) ++
         [Fetch (ntfyRequest (RESOURCE_NAME ++ " NOT AVAILABLE!")
                   "No availability found for any target Saturday.");
          pushLine resp;
          Stdout "INFO" "No availability found for any target Saturday.";
          completeLine])%list, 0)) /\
  ntfyRequest (RESOURCE_NAME ++ " NOT AVAILABLE!")
    "No availability found for any target Saturday." =
    {| method := "POST";
       url := "https://ntfy.sh/brazilian-room-pfr";
       headers := [("Title", "Brazilian Room NOT AVAILABLE!");
                   ("Priority", "high"); ("Tags", "calendar")];
       body := Some "No availability found for any target Saturday." |}.
Proof.
  assert (Hcheck : checkAvailability w =
    ((List.map chunkRequest DATE_RANGES ++ [emptyWarning])%list, Returns [])).
  { rewrite (checkAvailability_sweep w chunks Hsweep), Hempty. reflexivity. }
  assert (Hres : result (checkAvailability w) = Returns [])
    by now rewrite Hcheck.
  split; [exact Hcheck |].
  rewrite (run_unavailable w Hres).
  fold unavailableTitle. fold unavailableBody.
  split.
  - destruct (fetch w _) as [e | resp]; cbn [fst];
      rewrite notifications_after_checker; unfold notifications;
      cbn [List.filter completeLine fatalLine isNotification ntfyRequest
             method];
      now rewrite ?pushLine_quiet.
  - split; [intros resp ->; reflexivity | reflexivity].
Qed.

Lemma empty_sweep_completes_witness :
  snd (run (scenarioEmpty pushAccepted)) = 0 /\
  In emptyWarning (fst (run (scenarioEmpty pushAccepted))).
Proof.
  destruct (empty_sweep_completes (scenarioEmpty pushAccepted) [[]; []; []])
    as (_ & _ & Hexit & _).
  - repeat constructor.
  - reflexivity.
  - rewrite (Hexit _ eq_refl). split; [reflexivity |].
    vm_compute. intuition.
Defined.

(** ** Records without a time-slot array *)

(** C10, as stated, fails: a Saturday record with status 1 and no [times]
    field is classified as not available and the run ends with exit code
    0. *)
Lemma closed_saturday_without_times_completes :
  ~ (forall w chunks entry,
       sweepReturns w chunks ->
       In entry (List.concat chunks) ->
       nullish entry = false ->
       isSaturday (get entry "date") = true ->
       (forall items, get entry "times" <> Arr items) ->
       snd (run w) = 1).
Proof.
  intros Hclaim.
  specialize (Hclaim scenarioNoTimes
                [[Obj [("date", Str "2027-06-05"); ("status", Num 1)]]; []; []]
                (Obj [("date", Str "2027-06-05"); ("status", Num 1)])).
  discriminate Hclaim.
  - repeat constructor.
  - left. reflexivity.
  - reflexivity.
  - reflexivity.
  - intros items. discriminate.
Qed.

(** C10, amended: for a fetched record on a Saturday whose status is the
    available sentinel 0 and whose [times] field is missing or [null],
    evaluating the classification throws: the checker returns no list, no
    notification is attempted, and the run ends through the top-level
    handler with a [Fatal: ...] line and exit code 1.  A record with another
    status is classified as not available without its [times] being read.
    A [times] value that is neither missing nor [null] does not throw when
    its [length] can be converted to a number, as it can for every array,
    string, number and boolean; it throws, with status 0, when its [length]
    cannot be converted (an object holding an own [toString] property). *)
Theorem open_saturday_without_times_is_fatal w chunks entry
    (Hsweep : sweepReturns w chunks)
    (Hin : In entry (List.concat chunks))
    (Hobj : nullish entry = false)
    (Hsat : isSaturday (get entry "date") = true)
    (Hstatus : get entry "status" = Num STATUS_AVAILABLE)
    (Htimes : nullish (get entry "times") = true) :
  (exists e,
     result (checkAvailability w) = Throws e /\
     run w =
       ((banner :: trace (checkAvailability w) ++
         [Stdout "ERROR" ("Fatal: " ++ message e)])%list, 1)) /\
  notifications (fst (run w)) = [] /\
  (forall other,
     nullish other = false ->
     get other "status" <> Num STATUS_AVAILABLE ->
     isAvailable other = ([], Returns false)) /\
  (forall other,
     nullish other = false ->
     nullish (get other "times") = false ->
     convertible (get (get other "times") "length") = true ->
     exists b, isAvailable other = ([], Returns b)) /\
  (forall other,
     nullish other = false ->
     match get other "times" with
     | Arr _ | Str _ | Num _ | Bool _ => True
     | _ => False
     end ->
     exists b, isAvailable other = ([], Returns b)) /\
  (forall other,
     nullish other = false ->
     get other "status" = Num STATUS_AVAILABLE ->
     nullish (get other "times") = false ->
     convertible (get (get other "times") "length") = false ->
     exists e, isAvailable other = ([], Throws e)).
Proof.
  destruct (classify_throws entry _ [] Hin Hobj Hsat Hstatus Htimes)
    as (e & He).
  assert (Hcheck : result (checkAvailability w) = Throws e).
  { now rewrite (checkAvailability_sweep w chunks Hsweep). }
  pose proof (run_fatal w e Hcheck) as Hrun.
  split; [exists e; split; [exact Hcheck | exact Hrun] |].
  split; [| split; [| split; [| split]]].
  - rewrite Hrun. cbn [fst]. now rewrite notifications_after_checker.
  - apply isAvailable_other_status.
  - apply isAvailable_some_times.
  - intros other Hother Hshape.
    destruct (convertible_length _ Hshape) as [Hts Hlen].
    now apply isAvailable_some_times.
  - apply isAvailable_bad_length.
Qed.

Lemma open_saturday_without_times_is_fatal_witness :
  snd (run scenarioOpenNoTimes) = 1 /\
  notifications (fst (run scenarioOpenNoTimes)) = [].
Proof.
  destruct (open_saturday_without_times_is_fatal scenarioOpenNoTimes
              [[Obj [("date", Str "2027-06-05"); ("status", Num 0)]]; []; []]
              (Obj [("date", Str "2027-06-05"); ("status", Num 0)]))
    as ((e & _ & Hrun) & Hquiet & _).
  - repeat constructor.
  - left. reflexivity.
  - reflexivity.
  - reflexivity.
  - reflexivity.
  - reflexivity.
  - rewrite Hrun in *. split; [reflexivity | exact Hquiet].
Defined.


(** * Further properties of the script *)

(** ** The sweep stops at the first failure *)

Lemma fetchRange_run w startDate endDate :
  fetchRange w startDate endDate =
  ([Fetch (rangeRequest startDate endDate)],
   result (fetchRange w startDate endDate)).
Proof.
  rewrite (surjective_run (fetchRange w startDate endDate)) at 1.
  now rewrite fetchRange_trace.
Qed.

Lemma fetchChunks_stops w pre chunks chunk post e : forall allDetails,
  Forall2 (chunkReturns w) pre chunks ->
  result (fetchRange w (fst chunk) (snd chunk)) = Throws e ->
  fetchChunks w (pre ++ chunk :: post) allDetails =
  (List.map chunkRequest (pre ++ [chunk]), Throws e).
Proof.
  intros allDetails Hpre Hfail. revert allDetails.
  induction Hpre as [| [s t] items pre chunks Hc _ IH]; intros allDetails.
  - destruct chunk as [s t]. cbn [app fetchChunks List.map].
    rewrite bind_trace_result, fetchRange_trace. cbn [fst snd] in Hfail.
    now rewrite Hfail.
  - cbn [app fetchChunks List.map].
    unfold chunkReturns in Hc. cbn [fst snd] in Hc.
    rewrite bind_trace_result, fetchRange_trace, Hc.
    cbn [spread]. rewrite bind_ret, IH. reflexivity.
Qed.

Lemma chunkBroken_throws w chunk e :
  chunkBroken w chunk e ->
  result (fetchRange w (fst chunk) (snd chunk)) = Throws e.
Proof.
  intros [Hrej | (resp & Hresp & Hok & Hjson)].
  - unfold fetchRange, awaitFetch. now rewrite Hrej.
  - now rewrite (fetchRange_responded _ _ _ _ Hresp), Hok, Hjson.
Qed.

(** X1: the sweep is sequential and stops at the first chunk whose fetch
    throws: the chunks before it were requested in order, it was requested
    last, the chunks after it are never requested, nothing is logged or
    classified, and the checker throws that very error. *)
Theorem sweep_stops_at_first_failure w pre chunks chunk post e
    (Hranges : DATE_RANGES = (pre ++ chunk :: post)%list)
    (Hpre : Forall2 (chunkReturns w) pre chunks)
    (Hfail : result (fetchRange w (fst chunk) (snd chunk)) = Throws e) :
  checkAvailability w =
  (List.map chunkRequest (pre ++ [chunk]), Throws e).
Proof.
  unfold checkAvailability. rewrite Hranges.
  now rewrite (fetchChunks_stops w pre chunks chunk post e [] Hpre Hfail).
Qed.

Lemma sweep_stops_at_first_failure_witness :
  checkAvailability scenarioC =
  ([chunkRequest ("2027-06-01", "2027-07-14");
    chunkRequest ("2027-07-15", "2027-08-27")],
   Throws (mkExn "Error"
             "API returned HTTP 500 for range 2027-07-15–2027-08-27")).
Proof.
  apply (sweep_stops_at_first_failure scenarioC
           [("2027-06-01", "2027-07-14")]
           [[recordValue (openOn "2027-06-05")]]
           ("2027-07-15", "2027-08-27")
           [("2027-08-28", "2027-08-31")]).
  - reflexivity.
  - repeat constructor.
  - reflexivity.
Defined.

(** X2: a chunk request that is rejected, or answered 2xx with a body that
    is not JSON, is fatal like a failure status: after chunks that returned
    arrays, the run is the banner, the requests up to that chunk, and
    [Fatal: ] followed by the message of that very error; exit code 1. *)
Theorem broken_chunk_is_fatal w pre chunks chunk post e
    (Hranges : DATE_RANGES = (pre ++ chunk :: post)%list)
    (Hpre : Forall2 (chunkReturns w) pre chunks)
    (Hbroken : chunkBroken w chunk e) :
  run w =
  ((banner :: List.map chunkRequest (pre ++ [chunk]) ++
    [Stdout "ERROR" ("Fatal: " ++ message e)])%list, 1).
Proof.
  pose proof (fetchChunks_stops w pre chunks chunk post e [] Hpre
                (chunkBroken_throws w chunk e Hbroken)) as Hstop.
  assert (Hcheck : checkAvailability w =
                   (List.map chunkRequest (pre ++ [chunk]), Throws e)).
  { unfold checkAvailability. now rewrite Hranges, Hstop. }
  rewrite (run_fatal w e) by now rewrite Hcheck.
  now rewrite Hcheck.
Qed.

Lemma broken_chunk_is_fatal_witness :
  run scenarioChunkRejected =
  ([banner;
    chunkRequest ("2027-06-01", "2027-07-14");
    chunkRequest ("2027-07-15", "2027-08-27");
    Stdout "ERROR" "Fatal: Unable to connect"], 1).
Proof.
  apply (broken_chunk_is_fatal scenarioChunkRejected
           [("2027-06-01", "2027-07-14")]
           [[recordValue (openOn "2027-06-05")]]
           ("2027-07-15", "2027-08-27")
           [("2027-08-28", "2027-08-31")]
           (mkExn "TypeError" "Unable to connect")).
  - reflexivity.
  - repeat constructor.
  - left. reflexivity.
Defined.

(** ** A [daily_details] that is not a list *)

Lemma spread_notIterable v :
  notIterable v -> exists e, result (spread v) = Throws e.
Proof. destruct v; simpl; intros H; try contradiction; eexists; reflexivity. Qed.

Lemma fetchChunks_spread_throws w ranges chunk v : forall allDetails,
  In chunk ranges ->
  result (fetchRange w (fst chunk) (snd chunk)) = Returns v ->
  notIterable v ->
  exists e, result (fetchChunks w ranges allDetails) = Throws e.
Proof.
  induction ranges as [| [s t] rest IH]; intros allDetails Hin Hret Hv;
    [contradiction |].
  cbn [fetchChunks]. rewrite bind_trace_result.
  destruct (result (fetchRange w s t)) as [details | err] eqn:Hr;
    [| eexists; reflexivity].
  cbn [result snd]. rewrite bind_trace_result.
  destruct (result (spread details)) as [items | err] eqn:Hs;
    [| eexists; reflexivity].
  destruct Hin as [<- | Hin].
  - cbn [fst snd] in Hret. rewrite Hr in Hret. injection Hret as ->.
    destruct (spread_notIterable v Hv) as (err & Herr). congruence.
  - cbn [result snd]. now apply IH.
Qed.

(** X3: the fetcher hands on whatever [daily_details] holds, and the sweep
    spreads it unchecked: when a configured chunk answers with a
    [daily_details] that is a number, a boolean or an object, the checker
    throws, no notification is attempted, and the run ends with exit code
    1. *)
Theorem non_list_details_is_fatal w chunk v
    (Hin : In chunk DATE_RANGES)
    (Hret : result (fetchRange w (fst chunk) (snd chunk)) = Returns v)
    (Hv : notIterable v) :
  (exists e, result (checkAvailability w) = Throws e) /\
  notifications (fst (run w)) = [] /\
  snd (run w) = 1.
Proof.
  destruct (fetchChunks_spread_throws w DATE_RANGES chunk v [] Hin Hret Hv)
    as (e & He).
  pose proof (checkAvailability_fetch_throws w e He) as Hcheck.
  assert (Hres : result (checkAvailability w) = Throws e)
    by now rewrite Hcheck.
  rewrite (run_fatal w e Hres). cbn [fst snd].
  split; [eauto |]. split; [| reflexivity].
  now rewrite notifications_after_checker.
Qed.

Lemma non_list_details_is_fatal_witness :
  notifications (fst (run scenarioDetailsObject)) = [] /\
  snd (run scenarioDetailsObject) = 1.
Proof.
  apply (non_list_details_is_fatal scenarioDetailsObject
           ("2027-06-01", "2027-07-14") (Obj [("2027-06-05", Num 0)])).
  - left. reflexivity.
  - reflexivity.
  - exact I.
Defined.

(** ** When the classification gets through *)

Lemma isAvailable_returns_iff entry :
  nullish entry = false ->
  ((exists b, result (isAvailable entry) = Returns b) <->
   (get entry "status" = Num STATUS_AVAILABLE ->
    nullish (get entry "times") = false /\
    convertible (get (get entry "times") "length") = true)).
Proof.
  intros Hobj. split.
  - intros (b & Hb) Hstatus.
    destruct (nullish (get entry "times")) eqn:Htimes.
    + destruct (isAvailable_no_times entry Hobj Hstatus Htimes) as (e & He).
      rewrite He in Hb. discriminate.
    + split; [reflexivity |].
      destruct (convertible (get (get entry "times") "length")) eqn:Hlen;
        [reflexivity |].
      destruct (isAvailable_bad_length entry Hobj Hstatus Htimes Hlen)
        as (e & He).
      rewrite He in Hb. discriminate.
  - intros Himp.
    destruct (strictEqNum (get entry "status") STATUS_AVAILABLE) eqn:Heq.
    + apply strictEqNum_true in Heq. destruct (Himp Heq) as [Htimes Hlen].
      destruct (isAvailable_some_times entry Hobj Htimes Hlen) as (b & Hb).
      exists b. now rewrite Hb.
    + exists false. rewrite isAvailable_other_status; [reflexivity | exact Hobj |].
      intros Hs. apply strictEqNum_true in Hs. congruence.
Qed.

Lemma classify_returns_classifiable entries available :
  (exists out, result (classify entries available) = Returns out) <->
  Forall classifiable entries.
Proof.
  revert available.
  induction entries as [| entry rest IH]; intros available.
  - split; [constructor | intros _; eexists; reflexivity].
  - rewrite classify_cons. unfold getProp at 1.
    destruct (nullish entry) eqn:Hobj.
    { split.
      - intros (out & Hout). discriminate.
      - intros H. inversion H as [| ? ? (Hn & _) _]; subst. congruence. }
    rewrite bind_ret. unfold toPrimitive.
    destruct (convertible (get entry "date")) eqn:Hconv.
    2:{ split.
        - intros (out & Hout). discriminate.
        - intros H. inversion H as [| ? ? (_ & Hc & _) _]; subst. congruence. }
    rewrite bind_ret.
    destruct (isSaturday (get entry "date")) eqn:Hsat; cbn [negb].
    + rewrite bind_trace_result.
      pose proof (isAvailable_returns_iff entry Hobj) as Havail.
      destruct (result (isAvailable entry)) as [avail | e] eqn:Hr.
      * assert (Hent : classifiable entry).
        { split; [exact Hobj |]. split; [exact Hconv |].
          intros _. apply Havail. eauto. }
        assert (Hstep : forall acc,
          (exists out, result (classify rest acc) = Returns out) <->
          Forall classifiable (entry :: rest)).
        { intros acc. rewrite IH. split.
          - now constructor.
          - intros H. now inversion H. }
        destruct avail; rewrite bind_info; cbn [result snd]; apply Hstep.
      * split.
        -- intros (out & Hout). discriminate.
        -- intros H. inversion H as [| ? ? (_ & _ & Himp) _]; subst.
           destruct (proj2 Havail (Himp Hsat)) as (b & Hb).
           discriminate.
    + rewrite IH. split.
      * intros H. constructor; [| exact H].
        split; [exact Hobj |]. split; [exact Hconv |].
        intros Hs. congruence.
      * intros H. now inversion H.
Qed.

(** X4: for entries dated as the API dates them, the second loop returns a
    list exactly when every entry can be classified: no entry is [null] or
    [undefined], and every Saturday entry with status 0 has a [times] that
    is not missing or [null] and whose [length] can be converted to a
    number.  Any other content (absent date, odd status, [times] of another
    type, entries on other days without any field) gets through. *)
Theorem classify_returns_iff entries available
    (Hdated : Forall wellDated entries) :
  (exists out, result (classify entries available) = Returns out) <->
  Forall classifiable entries.
Proof. apply classify_returns_classifiable. Qed.

Lemma classify_returns_iff_witness :
  exists out,
    result
      (classify
         [recordValue (openOn "2027-06-05");
          Obj [("date", Str "2027-06-06")];
          Obj [("date", Str "2027-06-12"); ("status", Num 1)];
          Num 7] [])
    = Returns out.
Proof.
  apply classify_returns_iff.
  - constructor;
      [right; exists "2027-06-05"; repeat split; discriminate |].
    constructor;
      [right; exists "2027-06-06"; repeat split; discriminate |].
    constructor;
      [right; exists "2027-06-12"; repeat split; discriminate |].
    constructor; [left; reflexivity | constructor].
  - constructor; [repeat split |].
    constructor;
      [split; [reflexivity | split; [reflexivity |]];
       intros Hday; vm_compute in Hday; discriminate Hday |].
    constructor;
      [split; [reflexivity | split; [reflexivity |]];
       intros _ Hstatus; discriminate Hstatus |].
    constructor;
      [split; [reflexivity | split; [reflexivity |]];
       intros Hday; vm_compute in Hday; discriminate Hday | constructor].
Defined.

(** ** The second loop composes *)

Lemma bind_assoc {A B C : Type} (m : M A) (k : A -> M B) (h : B -> M C) :
  bind (bind m k) h = bind m (fun a => bind (k a) h).
Proof.
  destruct m as [t [a | e]]; [| reflexivity].
  unfold bind at 2 3. destruct (k a) as [t' [b | e]].
  - cbn [bind]. destruct (h b) as [t'' r]. now rewrite app_assoc.
  - reflexivity.
Qed.

Lemma classify_concat xs ys available :
  classify (xs ++ ys) available =
  (reached <- classify xs available ;; classify ys reached).
Proof.
  revert available.
  induction xs as [| entry rest IH]; intros available.
  - cbn [app classify]. now rewrite bind_ret.
  - cbn [app]. rewrite !classify_cons, bind_assoc.
    unfold getProp at 1 2.
    destruct (nullish entry); [reflexivity |].
    rewrite !bind_ret, bind_assoc. unfold toPrimitive.
    destruct (convertible (get entry "date")); [| reflexivity].
    rewrite !bind_ret.
    destruct (isSaturday (get entry "date")); cbn [negb]; [| apply IH].
    rewrite bind_assoc.
    destruct (isAvailable entry) as [t [avail | e]]; [| reflexivity].
    cbn [bind].
    destruct avail; rewrite bind_assoc, IH; reflexivity.
Qed.

(** X5: classifying a concatenation is classifying its first part and then
    its second part from the list reached so far: log lines, thrown errors
    and the returned list are the same, so how records are split into
    chunks does not show in the classification. *)
Theorem classify_app xs ys available :
  classify (xs ++ ys) available =
  (reached <- classify xs available ;; classify ys reached).
Proof. apply classify_concat. Qed.

(** ** What the checker logs *)

Lemma classify_info entries : forall available,
  Forall (fun ev => exists msg, ev = Stdout "INFO" msg)
    (trace (classify entries available)).
Proof.
  induction entries as [| entry rest IH]; intros available;
    [constructor |].
  rewrite classify_cons. unfold getProp at 1.
  destruct (nullish entry); [constructor |].
  rewrite bind_ret. unfold toPrimitive.
  destruct (convertible (get entry "date")); [| constructor].
  rewrite bind_ret.
  destruct (isSaturday (get entry "date")); cbn [negb]; [| apply IH].
  rewrite bind_trace_result, isAvailable_trace.
  destruct (result (isAvailable entry)) as [[|] | e];
    try rewrite bind_info; cbn [trace fst app];
    try constructor; eauto.
Qed.

(** X6: the warning that the API returned no [daily_details] is logged
    exactly when every chunk was fetched and spread and no entry at all
    came back; a failed sweep or a single entry of any kind suppresses
    it. *)
Theorem empty_warning_iff w :
  In emptyWarning (trace (checkAvailability w)) <->
  result (fetchChunks w DATE_RANGES []) = Returns [].
Proof.
  assert (Hgets : ~ In emptyWarning (trace (fetchChunks w DATE_RANGES []))).
  { intros Hin.
    pose proof (fetchChunks_gets w DATE_RANGES []) as Hg.
    rewrite Forall_forall in Hg. specialize (Hg _ Hin). discriminate Hg. }
  destruct (result (fetchChunks w DATE_RANGES [])) as [allDetails | e] eqn:Hr.
  - rewrite (checkAvailability_fetched w allDetails Hr). cbn [trace fst].
    destruct allDetails as [| entry rest]; cbn [warnIfEmpty app].
    + split; [reflexivity |]. intros _.
      apply in_or_app. right. left. reflexivity.
    + split; [| discriminate]. intros Hin.
      apply in_app_or in Hin as [Hin | Hin]; [contradiction |].
      pose proof (classify_info (entry :: rest) []) as Hi.
      rewrite Forall_forall in Hi. destruct (Hi _ Hin) as (msg & Hmsg).
      discriminate Hmsg.
  - rewrite (checkAvailability_fetch_throws w e Hr). cbn [trace fst].
    split; [contradiction | discriminate].
Qed.

Lemma filter_isStdout_dispositions rs :
  List.filter isStdout (List.map dispositionLine rs) =
  List.map dispositionLine rs.
Proof. induction rs as [| r rs IH]; simpl; [reflexivity | now rewrite IH]. Qed.

(** X7: on typed records fetched from every chunk, the checker logs one
    line per record whose date is a Saturday, in the order fetched, saying
    [AVAILABLE on] when the status is 0 and a slot exists and [Not
    available on] otherwise, each followed by the long form of the date;
    records on other days leave no line. *)
Theorem disposition_logged_per_saturday w chunks rss
    (Hsweep : sweepReturns w chunks)
    (Htyped : Forall2 (Forall2 conforms) chunks rss) :
  List.filter isStdout (trace (checkAvailability w)) =
  (warnIfEmpty (List.concat chunks) ++
   List.map
     (fun r =>
        Stdout "INFO"
          ((if (status r =? STATUS_AVAILABLE) && hasSlots r
            then "  AVAILABLE on " else "  Not available on ") ++
           formatLabel (Str (date r))))
     (List.filter (fun r => isSaturday (Str (date r))) (List.concat rss)))%list.
Proof.
  rewrite (checkAvailability_typed w chunks rss Hsweep Htyped).
  cbn [trace fst]. rewrite !filter_app.
  change (List.filter isStdout (List.map chunkRequest DATE_RANGES)) with
    (@nil event).
  cbn [app]. f_equal.
  - destruct (List.concat chunks); reflexivity.
  - apply filter_isStdout_dispositions.
Qed.

Lemma disposition_logged_per_saturday_witness :
  List.filter isStdout (trace (checkAvailability scenarioWeek)) =
  [Stdout "INFO" "  AVAILABLE on Saturday, June 5, 2027";
   Stdout "INFO" "  Not available on Saturday, June 12, 2027"].
Proof.
  apply (disposition_logged_per_saturday scenarioWeek
           [List.map recordValue
              [openOn "2027-06-05"; openOn "2027-06-06";
               closedOn "2027-06-12"]; []; []]
           [[openOn "2027-06-05"; openOn "2027-06-06";
             closedOn "2027-06-12"]; []; []]).
  - repeat constructor.
  - repeat constructor.
Defined.

(** ** Notifications in every run *)

(** X8: when availability is found and the alert command cannot be started,
    the exception leaves [sendNotification]: the remote push is never
    attempted, and the run ends with a [Fatal: ...] line and exit code
    1. *)
Theorem failed_spawn_blocks_push w available e
    (Hrun : result (checkAvailability w) = Returns available)
    (Hfound : available <> [])
    (Halert :
       spawnSync w (alertArgv availableTitle (availableBody available)) =
       SpawnFailed e) :
  run w =
    ((banner :: trace (checkAvailability w) ++
      [foundLine available;
       Spawn (alertArgv availableTitle (availableBody available));
       Stdout "ERROR" ("Fatal: " ++ message e)])%list, 1) /\
  notifications (fst (run w)) =
    [Spawn (alertArgv availableTitle (availableBody available))].
Proof.
  rewrite (run_available w available Hrun Hfound), Halert.
  split; [reflexivity |].
  cbn [fst]. now rewrite notifications_after_checker.
Qed.

Lemma failed_spawn_blocks_push_witness :
  snd (run scenarioNoOsascript) = 1 /\
  notifications (fst (run scenarioNoOsascript)) =
    [Spawn (alertArgv "Brazilian Room AVAILABLE!"
              "Open on: Jun 5 | Jul 17 | Aug 28")].
Proof.
  destruct (failed_spawn_blocks_push scenarioNoOsascript
              [Str "2027-06-05"; Str "2027-07-17"; Str "2027-08-28"]
              (mkExn "Error" "Executable not found in $PATH: osascript")
              eq_refl ltac:(discriminate) eq_refl)
    as (Hrun & Hnote).
  split; [now rewrite Hrun | exact Hnote].
Defined.

(** X9: the notifications of any run, whatever the world answers: none when
    the checker throws; the remote push alone, with the not-available
    title and message, when the checker returns the empty list; otherwise
    the local alert, followed by the remote push unless the alert command
    could not be started.  So a run raises at most one alert and at most
    one push, never a push before the alert, and never an alert without
    availability.  The alert is [osascript -e] with the script that shows
    the message under the title; the push is a POST to the relay topic with
    the title in its [Title] header and the message as its body. *)
Theorem notifications_of_any_run w :
  notifications (fst (run w)) =
  match result (checkAvailability w) with
  | Throws _ => []
  | Returns [] => [Fetch (ntfyRequest unavailableTitle unavailableBody)]
  | Returns available =>
      Spawn (alertArgv availableTitle (availableBody available)) ::
      match
        spawnSync w (alertArgv availableTitle (availableBody available))
      with
      | SpawnFailed _ => []
      | Exited _ | Killed _ =>
          [Fetch (ntfyRequest availableTitle (availableBody available))]
      end
  end /\
  (forall title message,
     alertArgv title message =
       ["osascript"; "-e";
        "display notification " ++ dquote ++ message ++ dquote ++
        " with title " ++ dquote ++ title ++ dquote ++
        " sound name " ++ dquote ++ "Glass" ++ dquote] /\
     ntfyRequest title message =
       {| method := "POST";
          url := "https://ntfy.sh/brazilian-room-pfr";
          headers := [("Title", title); ("Priority", "high");
                      ("Tags", "calendar")];
          body := Some message |}) /\
  availableTitle = "Brazilian Room AVAILABLE!" /\
  unavailableTitle = "Brazilian Room NOT AVAILABLE!" /\
  unavailableBody = "No availability found for any target Saturday." /\
  (forall available,
     availableBody available =
     "Open on: " ++ join " | " (List.map formatShort available)).
Proof.
  split; [| repeat split].
  destruct (result (checkAvailability w)) as [[| d rest] | e] eqn:Hcheck.
  - rewrite (run_unavailable w Hcheck).
    destruct (fetch w _) as [e | resp]; cbn [fst];
      rewrite notifications_after_checker; unfold notifications;
      cbn [List.filter completeLine fatalLine isNotification ntfyRequest
             method];
      now rewrite ?pushLine_quiet.
  - rewrite (run_available w (d :: rest) Hcheck) by discriminate.
    destruct (spawnSync w _) as [e | exitCode | sig];
      [cbn [fst]; now rewrite notifications_after_checker | |];
      cbv zeta;
      (destruct (fetch w _) as [e | resp]; cbn [fst];
       rewrite notifications_after_checker; unfold notifications;
       cbn [List.filter foundLine completeLine fatalLine killedLine
              isNotification ntfyRequest method];
       now rewrite ?alertLine_quiet, ?pushLine_quiet).
  - rewrite (run_fatal w e Hcheck). cbn [fst].
    now rewrite notifications_after_checker.
Qed.

(** ** The shape of a run *)

(** X10: every run starts with the starting banner and ends in one of two
    ways: with the completion banner and exit code 0, or with a [Fatal: ]
    line at error level and exit code 1.  No run ends silently, and the
    exit code tells which. *)
Theorem run_shape w :
  exists body last,
    fst (run w) = (banner :: body ++ [last])%list /\
    ((snd (run w) = 0 /\ last = completeLine) \/
     (snd (run w) = 1 /\
      exists e, last = Stdout "ERROR" ("Fatal: " ++ message e))).
Proof.
  destruct (result (checkAvailability w)) as [[| d rest] | e] eqn:Hcheck.
  - rewrite (run_unavailable w Hcheck).
    destruct (fetch w _) as [e | resp]; cbn [fst snd].
    + exists (trace (checkAvailability w) ++
              [Fetch (ntfyRequest unavailableTitle unavailableBody)])%list,
        (fatalLine e).
      split; [now rewrite <- app_assoc | right; split; [reflexivity | eexists; reflexivity]].
    + exists (trace (checkAvailability w) ++
              [Fetch (ntfyRequest unavailableTitle unavailableBody);
               pushLine resp; Stdout "INFO" unavailableBody])%list,
        completeLine.
      split; [now rewrite <- app_assoc | left; split; reflexivity].
  - rewrite (run_available w (d :: rest) Hcheck) by discriminate.
    destruct (spawnSync w _) as [e | exitCode | sig]; cbv zeta;
      cbn [fst snd].
    + eexists (trace (checkAvailability w) ++ [_; _])%list, (fatalLine e).
      split; [now rewrite <- app_assoc | right; split; [reflexivity | eexists; reflexivity]].
    + destruct (fetch w _) as [e | resp]; cbn [fst snd].
      * eexists (trace (checkAvailability w) ++ [_; _; _; _])%list,
          (fatalLine e).
        split; [now rewrite <- app_assoc | right; split; [reflexivity | eexists; reflexivity]].
      * eexists (trace (checkAvailability w) ++ [_; _; _; _; _])%list,
          completeLine.
        split; [now rewrite <- app_assoc | left; split; reflexivity].
    + destruct (fetch w _) as [e | resp]; cbn [fst snd].
      * eexists (trace (checkAvailability w) ++ [_; _; _; _])%list,
          (fatalLine e).
        split; [now rewrite <- app_assoc | right; split; [reflexivity | eexists; reflexivity]].
      * eexists (trace (checkAvailability w) ++ [_; _; _; _; _])%list,
          completeLine.
        split; [now rewrite <- app_assoc | left; split; reflexivity].
  - rewrite (run_fatal w e Hcheck). cbn [fst snd].
    exists (trace (checkAvailability w)), (fatalLine e).
    split; [reflexivity | right; split; [reflexivity | eexists; reflexivity]].
Qed.

(** X11: a sweep of typed records never fails by itself: when every chunk
    returns typed records and the notifiers answer (the alert command with
    any exit code, the relay with any status), the run ends with exit code
    0, whatever the records say. *)
Theorem typed_sweep_completes w chunks rss
    (Hsweep : sweepReturns w chunks)
    (Htyped : Forall2 (Forall2 conforms) chunks rss)
    (Halert : forall argv, exists exitCode, spawnSync w argv = Exited exitCode)
    (Hpush :
       forall title message,
       exists resp, fetch w (ntfyRequest title message) = Responded resp) :
  snd (run w) = 0.
Proof.
  pose proof (checkAvailability_typed w chunks rss Hsweep Htyped) as Hcheck.
  apply (f_equal snd) in Hcheck. cbn [snd] in Hcheck.
  fold (result (checkAvailability w)) in Hcheck.
  destruct (List.map dateValue (List.filter reported (List.concat rss)))
    as [| d rest] eqn:Hlist.
  - rewrite (run_unavailable w Hcheck).
    destruct (Hpush unavailableTitle unavailableBody) as (resp & ->).
    reflexivity.
  - rewrite (run_available w (d :: rest) Hcheck) by discriminate.
    destruct (Halert (alertArgv availableTitle (availableBody (d :: rest))))
      as (exitCode & ->).
    destruct (Hpush availableTitle (availableBody (d :: rest))) as (resp & ->).
    reflexivity.
Qed.

Lemma typed_sweep_completes_witness : snd (run scenarioBothRefuse) = 0.
Proof.
  apply (typed_sweep_completes scenarioBothRefuse
           [[recordValue (openOn "2027-06-05")];
            [recordValue (openOn "2027-07-17")];
            [recordValue (openOn "2027-08-28")]]
           [[openOn "2027-06-05"]; [openOn "2027-07-17"];
            [openOn "2027-08-28"]]).
  - repeat constructor.
  - repeat constructor.
  - intros argv. exists 1. reflexivity.
  - intros title message. eexists. reflexivity.
Defined.

(** ** The text handed to the notifiers *)

Lemma plain_append a b : plain (a ++ b) = plain a && plain b.
Proof.
  induction a as [| x a IH]; simpl; [reflexivity |].
  rewrite IH. now rewrite !andb_assoc.
Qed.

Lemma plain_uint d : plain (NilEmpty.string_of_uint d) = true.
Proof. induction d; simpl; auto. Qed.

Lemma plain_decimal n : plain (decimal n) = true.
Proof.
  unfold decimal, NilZero.string_of_int, NilZero.string_of_uint.
  destruct (Z.to_int n) as [d | d]; [| simpl];
    (destruct d; [reflexivity | apply plain_uint ..]).
Qed.

Lemma plain_monthShort m : plain (monthShort m) = true.
Proof.
  unfold monthShort.
  destruct (Z.to_nat (m - 1)) as [| n]; [reflexivity |].
  do 11 (destruct n as [| n]; [reflexivity |]).
  destruct n; reflexivity.
Qed.

Lemma plain_formatShort v : plain (formatShort v) = true.
Proof.
  unfold formatShort, shortDate.
  destruct (newDate _) as [dt |]; [| reflexivity].
  now rewrite !plain_append, plain_monthShort, plain_decimal.
Qed.

Lemma plain_join sep l :
  plain sep = true ->
  Forall (fun s => plain s = true) l ->
  plain (join sep l) = true.
Proof.
  intros Hsep. induction 1 as [| s l Hs Hl IH]; [reflexivity |].
  destruct l as [| s' l']; [exact Hs |].
  change (join sep (s :: s' :: l')) with (s ++ sep ++ join sep (s' :: l')).
  now rewrite !plain_append, Hs, Hsep, IH.
Qed.

(** X13: the title and the message that [sendNotification] puts between
    double quotes in the AppleScript never hold a double quote or a
    backslash, for any list of dates whatsoever: the short form of a date is
    a month abbreviation, a space and digits (or [Invalid Date]).  So the
    unescaped interpolation cannot break the script. *)
Theorem alert_text_is_plain (available : list value) :
  plain (RESOURCE_NAME ++ " AVAILABLE!") = true /\
  plain ("Open on: " ++ join " | " (List.map formatShort available)) = true.
Proof.
  split; [reflexivity |].
  rewrite plain_append. apply andb_true_iff. split; [reflexivity |].
  apply plain_join; [reflexivity |].
  apply Forall_forall. intros s Hin.
  apply in_map_iff in Hin as (v & <- & _). apply plain_formatShort.
Qed.

(** ** The log line *)

Lemma replaceFirst_at c rep d rest :
  without c d = true ->
  replaceFirst c rep (d ++ String c rest) = d ++ rep ++ rest.
Proof.
  induction d as [| x d IH]; simpl.
  - intros _. now rewrite Ascii.eqb_refl.
  - intros H. apply andb_true_iff in H as [Hx Hd].
    apply negb_true_iff in Hx. now rewrite Hx, IH.
Qed.

Lemma stripFraction_at p f :
  without "." p = true ->
  f <> EmptyString ->
  noTerminator f = true ->
  stripFraction (p ++ String "." f) = p.
Proof.
  intros Hp Hf Hterm. induction p as [| x p IH]; simpl.
  - rewrite Hterm. destruct f; [contradiction | reflexivity].
  - simpl in Hp. apply andb_true_iff in Hp as [Hx Hp].
    apply negb_true_iff in Hx. rewrite Hx. simpl. now rewrite IH.
Qed.

Lemma without_append c a b : without c (a ++ b) = without c a && without c b.
Proof.
  induction a as [| x a IH]; simpl; [reflexivity |].
  now rewrite IH, andb_assoc.
Qed.

Lemma append_assoc (a b c : string) : (a ++ b) ++ c = a ++ b ++ c.
Proof. induction a as [| x a IH]; simpl; [reflexivity | now rewrite IH]. Qed.

Lemma length_spaces n : String.length (spaces n) = n.
Proof. induction n; simpl; congruence. Qed.

Lemma length_append a b :
  String.length (a ++ b) = (String.length a + String.length b)%nat.
Proof. induction a; simpl; congruence. Qed.

(** X14: for a clock reading of the ISO form, a date, [T], a time, a dot and
    a non-empty rest (the milliseconds and [Z]), the line [log] writes is the
    date, two spaces, the time, two spaces, the level padded with spaces to
    eight characters, two spaces, the message and a line feed: the fraction
    and the zone are dropped.  A level of at most eight characters (INFO,
    WARNING, ERROR) pads to exactly eight, so the message starts at the same
    column on every line. *)
Theorem logLine_format d t f level message
    (Hd : without "T" d = true /\ without "." d = true)
    (Ht : without "." t = true)
    (Hf : f <> EmptyString /\ noTerminator f = true) :
  logLine (d ++ "T" ++ t ++ "." ++ f) level message =
    d ++ "  " ++ t ++ "  " ++ padEnd 8 level ++ "  " ++ message ++ newline /\
  String.length (padEnd 8 level) = Nat.max 8 (String.length level).
Proof.
  destruct Hd as [HdT Hddot]. destruct Hf as [Hf Hterm]. split.
  - unfold logLine.
    change (d ++ "T" ++ t ++ "." ++ f) with (d ++ String "T" (t ++ "." ++ f)).
    rewrite (replaceFirst_at "T" "  " d _ HdT).
    assert (Hstrip : stripFraction (d ++ "  " ++ t ++ "." ++ f) = d ++ "  " ++ t).
    { replace (d ++ "  " ++ t ++ "." ++ f)
        with ((d ++ "  " ++ t) ++ String "." f).
      - apply stripFraction_at; [| exact Hf | exact Hterm].
        now rewrite !without_append, Hddot, Ht.
      - now rewrite !append_assoc. }
    rewrite Hstrip. now rewrite !append_assoc.
  - unfold padEnd. rewrite length_append, length_spaces. lia.
Qed.

Lemma logLine_format_witness :
  logLine "2026-11-03T01:02:03.456Z" "WARNING" "API returned nothing" =
    "2026-11-03  01:02:03  WARNING   API returned nothing" ++ newline /\
  String.length (padEnd 8 "WARNING") = 8%nat.
Proof.
  apply (logLine_format "2026-11-03" "01:02:03" "456Z" "WARNING"
           "API returned nothing").
  - split; reflexivity.
  - reflexivity.
  - split; [discriminate | reflexivity].
Defined.

(** ** A [daily_details] that is a string *)

Lemma classify_characters cs : forall available,
  classify
    (List.map (fun c => Str (String c EmptyString)) cs) available =
  ([], Returns available).
Proof.
  induction cs as [| c cs IH]; intros available; [reflexivity |].
  cbn [List.map]. rewrite classify_cons.
  rewrite getProp_object, bind_ret by reflexivity.
  change (get (Str (String c EmptyString)) "date") with Undefined.
  rewrite toPrimitive_convertible, bind_ret by reflexivity.
  change (isSaturday Undefined) with false. cbn [negb]. apply IH.
Qed.

(** X15: a [daily_details] that is a string is taken without complaint: it
    is spread into its characters, and these entries, wherever they stand
    among the others, add no date, no log line and no error to the
    classification.  The shape change goes unnoticed unless every chunk
    comes back empty. *)
Theorem string_details_ignored s pre post available :
  exists items,
    spread (Str s) = ([], Returns items) /\
    (items = [] <-> s = EmptyString) /\
    classify (pre ++ items ++ post) available =
    classify (pre ++ post) available.
Proof.
  exists (List.map (fun c => Str (String c EmptyString))
            (list_ascii_of_string s)).
  split; [reflexivity |]. split.
  - destruct s; simpl; split; intros H; try reflexivity; discriminate.
  - rewrite (classify_concat pre), (classify_concat pre post).
    destruct (classify pre available) as [t [reached | e]]; [| reflexivity].
    cbn [bind]. rewrite classify_concat, classify_characters.
    change (@nil event, Returns reached) with (ret reached).
    now rewrite bind_ret.
Qed.
